(** * Temporal knowledge-graph statistics: a shallow embedding

    This development embeds the statistics engine of
    [scripts/analyze_temporal_kgs.py] and proves properties of its line
    parser, its accumulator, its merge combinator, its ranking and its
    dataset discovery.

    Modelling conventions.
    - Python [int] is [Z]; [str] is [string], read as a sequence of
      characters in the ASCII range. A character outside that range is
      neither white space nor a digit here; in particular the digits that
      [str.isdigit] accepts and [int] rejects (superscripts and the like)
      are not represented.
    - A [set] of strings is a [gset string]; a [Counter] is an insertion-
      ordered association list with pairwise distinct keys, because
      [most_common] breaks ties by insertion order.
    - A function that mutates its argument and returns [None] is a function
      from the old value to the new one; a function that can raise returns
      a [result]; the orchestrator, which reads the file system, also
      threads the list of the files it has opened.
    - The library functions [datetime.strptime], [int], [str.strip],
      [str.split], [Counter.update], [Counter.most_common] and [sorted] are
      modelled after CPython. *)

From Stdlib Require Import ZArith Ascii String.
From stdpp Require Import base tactics option list sorting strings pretty gmap.

Local Open Scope Z_scope.

(** ** Exceptions and results *)

Inductive exn : Type :=
  | ValueError
  | FileNotFoundError
  | NotADirectoryError
  | IsADirectoryError
  | SystemExit (msg : string).

Inductive result (A : Type) : Type :=
  | Ok (a : A)
  | Raise (e : exn).

Arguments Ok {A} a.
Arguments Raise {A} e.

Global Instance result_ret : MRet result := λ A a, Ok a.

Global Instance result_bind : MBind result := λ A B k r,
  match r with
  | Ok a => k a
  | Raise e => Raise e
  end.

(** ** Python string primitives *)

Module PyStr.

Definition chars (s : string) : list ascii := list_ascii_of_string s.
Definition str (l : list ascii) : string := string_of_list_ascii l.

Definition tab : ascii := ascii_of_nat 9.
Definition newline : ascii := ascii_of_nat 10.
Definition dquote : ascii := ascii_of_nat 34.

(** [ch.isspace()] on the ASCII range: TAB, LF, VT, FF, CR, the four
    separators FS, GS, RS, US, and the space. *)
Definition isspace (c : ascii) : bool :=
  let n := nat_of_ascii c in
  ((9 <=? n)%nat && (n <=? 13)%nat) || ((28 <=? n)%nat && (n <=? 32)%nat).

(** [ch.isdigit()] on the ASCII range. *)
Definition isdigit (c : ascii) : bool :=
  let n := nat_of_ascii c in (48 <=? n)%nat && (n <=? 57)%nat.

Definition digit_val (c : ascii) : Z := Z.of_nat (nat_of_ascii c) - 48.

Fixpoint lstrip_by (p : ascii → bool) (l : list ascii) : list ascii :=
  match l with
  | [] => []
  | c :: l' => if p c then lstrip_by p l' else l
  end.

Definition strip_by (p : ascii → bool) (l : list ascii) : list ascii :=
  rev (lstrip_by p (rev (lstrip_by p l))).

(** [s.strip()] *)
Definition strip (s : string) : string := str (strip_by isspace (chars s)).

Definition mem_char (set : list ascii) (c : ascii) : bool :=
  existsb (Ascii.eqb c) set.

(** [s.strip(set)] *)
Definition strip_chars (set : string) (s : string) : string :=
  str (strip_by (mem_char (chars set)) (chars s)).

(** [s.split(sep)] for a one-character separator: always at least one
    field, empty fields kept. *)
Fixpoint split_chars (sep : ascii) (l : list ascii) : list (list ascii) :=
  match l with
  | [] => [[]]
  | c :: l' =>
      if Ascii.eqb c sep then [] :: split_chars sep l'
      else match split_chars sep l' with
           | [] => [[c]]
           | w :: ws => (c :: w) :: ws
           end
  end.

Definition split (sep : ascii) (s : string) : list string :=
  map str (split_chars sep (chars s)).

(** ["".join(ch for ch in s if ch.isdigit())] *)
Definition digits_of (s : string) : string := str (filter (λ c, isdigit c = true) (chars s)).

(** [s[:n]] *)
Definition prefix (n : nat) (s : string) : string := str (take n (chars s)).

(** [len(s)] *)
Definition len (s : string) : Z := Z.of_nat (length (chars s)).

Definition lower_char (c : ascii) : ascii :=
  let n := nat_of_ascii c in
  if (65 <=? n)%nat && (n <=? 90)%nat then ascii_of_nat (n + 32) else c.

(** [s.lower()] *)
Definition lower (s : string) : string := str (map lower_char (chars s)).

Fixpoint starts_with (p l : list ascii) : bool :=
  match p, l with
  | [], _ => true
  | _ :: _, [] => false
  | a :: p', b :: l' => Ascii.eqb a b && starts_with p' l'
  end.

Fixpoint contains_chars (p l : list ascii) : bool :=
  starts_with p l ||
  match l with
  | [] => false
  | _ :: l' => contains_chars p l'
  end.

(** [p in s] *)
Definition contains (p s : string) : bool := contains_chars (chars p) (chars s).

(** [s.endswith(p)] *)
Definition endswith (p s : string) : bool :=
  starts_with (rev (chars p)) (rev (chars s)).

(** Decimal digits, single underscores allowed between two digits. *)
Fixpoint int_digits (acc : Z) (after_digit : bool) (l : list ascii) : option Z :=
  match l with
  | [] => if after_digit then Some acc else None
  | c :: l' =>
      if isdigit c then int_digits (10 * acc + digit_val c) true l'
      else if Ascii.eqb c "_" && after_digit then int_digits acc false l'
      else None
  end.

(** [int(s)]: surrounding white space is ignored, one optional sign, then
    decimal digits; anything else raises [ValueError]. *)
Definition int (s : string) : result Z :=
  let body := strip_by isspace (chars s) in
  let parsed :=
    match body with
    | "+"%char :: l => int_digits 0 false l
    | "-"%char :: l => Z.opp <$> int_digits 0 false l
    | l => int_digits 0 false l
    end in
  match parsed with
  | Some z => Ok z
  | None => Raise ValueError
  end.

(** Order of [str] values: by code point, a proper prefix first. *)
Fixpoint le_chars (a b : list ascii) : bool :=
  match a, b with
  | [], _ => true
  | _ :: _, [] => false
  | x :: a', y :: b' =>
      if (nat_of_ascii x <? nat_of_ascii y)%nat then true
      else if (nat_of_ascii y <? nat_of_ascii x)%nat then false
      else le_chars a' b'
  end.

Definition le (a b : string) : bool := le_chars (chars a) (chars b).

Fixpoint insert_sorted (x : string) (l : list string) : list string :=
  match l with
  | [] => [x]
  | y :: l' => if le x y then x :: l else y :: insert_sorted x l'
  end.

(** [sorted(names)] *)
Definition sorted (l : list string) : list string := foldr insert_sorted [] l.

End PyStr.

(** ** Calendar dates and [datetime.strptime(s, "%Y-%m-%d")] *)

Record date : Type := mkDate { year : Z; month : Z; day : Z }.

Global Instance date_eq_dec : EqDecision date.
Proof. solve_decision. Defined.

(** [a < b] on [datetime.date]: lexicographic on year, month, day. *)
Definition date_ltb (a b : date) : bool :=
  (year a <? year b) ||
  ((year a =? year b) &&
   ((month a <? month b) || ((month a =? month b) && (day a <? day b)))).

Definition is_leap (y : Z) : bool :=
  (y mod 4 =? 0) && (negb (y mod 100 =? 0) || (y mod 400 =? 0)).

Definition days_in_month (y m : Z) : Z :=
  if m =? 2 then (if is_leap y then 29 else 28)
  else if (m =? 4) || (m =? 6) || (m =? 9) || (m =? 11) then 30
  else 31.

(** [datetime.date(y, m, d)] raises [ValueError] outside the calendar;
    years run from 1 to 9999. *)
Definition make_date (y m d : Z) : result date :=
  if (1 <=? y) && (y <=? 9999) && (1 <=? m) && (m <=? 12)
     && (1 <=? d) && (d <=? days_in_month y m)
  then Ok (mkDate y m d) else Raise ValueError.

Module Strptime.
Import PyStr.

(** The directive [%Y]: exactly four digits. *)
Definition take_Y (l : list ascii) : option (Z * list ascii) :=
  match l with
  | a :: b :: c :: d :: rest =>
      if isdigit a && isdigit b && isdigit c && isdigit d
      then Some (1000 * digit_val a + 100 * digit_val b + 10 * digit_val c + digit_val d, rest)
      else None
  | _ => None
  end.

Definition in_range (lo hi : nat) (c : ascii) : bool :=
  let n := nat_of_ascii c in (lo <=? n)%nat && (n <=? hi)%nat.

(** The directive [%m] followed by the literal dash: the alternatives
    [1[0-2]], [0[1-9]], [[1-9]] in that order, the first one after which
    a dash follows. *)
Definition take_m_dash (l : list ascii) : option (Z * list ascii) :=
  match l with
  | a :: b :: "-"%char :: rest =>
      if Ascii.eqb a "1" && in_range 48 50 b then Some (10 + digit_val b, rest)
      else if Ascii.eqb a "0" && in_range 49 57 b then Some (digit_val b, rest)
      else None
  | a :: "-"%char :: rest =>
      if in_range 49 57 a then Some (digit_val a, rest) else None
  | _ => None
  end.

(** The directive [%d], last in the pattern: the alternatives [3[0-1]],
    [[1-2]\d], [0[1-9]], [[1-9]], [ [1-9]], the first that matches. *)
Definition take_d (l : list ascii) : option (Z * list ascii) :=
  match l with
  | a :: b :: rest =>
      if Ascii.eqb a "3" && in_range 48 49 b then Some (30 + digit_val b, rest)
      else if in_range 49 50 a && isdigit b then Some (10 * digit_val a + digit_val b, rest)
      else if Ascii.eqb a "0" && in_range 49 57 b then Some (digit_val b, rest)
      else if in_range 49 57 a then Some (digit_val a, b :: rest)
      else if Ascii.eqb a " " && in_range 49 57 b then Some (digit_val b, rest)
      else None
  | [a] => if in_range 49 57 a then Some (digit_val a, []) else None
  | [] => None
  end.

(** [datetime.strptime(s, "%Y-%m-%d")] followed by [.date()]: the pattern
    must match at the start, nothing may remain, and the three numbers
    must name a day of the calendar. *)
Definition strptime_ymd (s : string) : result date :=
  match take_Y (chars s) with
  | Some (y, "-"%char :: l1) =>
      match take_m_dash l1 with
      | Some (m, l2) =>
          match take_d l2 with
          | Some (d, []) => make_date y m d
          | _ => Raise ValueError
          end
      | None => Raise ValueError
      end
  | _ => Raise ValueError
  end.

End Strptime.

Example strptime_plain :
  Strptime.strptime_ymd "2010-05-01" = Ok (mkDate 2010 5 1).
Proof. reflexivity. Qed.

Example strptime_month_13 : Strptime.strptime_ymd "2010-13-01" = Raise ValueError.
Proof. reflexivity. Qed.

Example strptime_feb_30 : Strptime.strptime_ymd "2011-02-30" = Raise ValueError.
Proof. reflexivity. Qed.

Example strptime_trailing : Strptime.strptime_ymd "2010-05-011" = Raise ValueError.
Proof. reflexivity. Qed.

Example int_examples :
  PyStr.int "1990" = Ok 1990 ∧ PyStr.int "-44" = Ok (-44) ∧
  PyStr.int "" = Raise ValueError ∧ PyStr.int "19x0" = Raise ValueError.
Proof. repeat split; reflexivity. Qed.

(** ** [collections.Counter]

    The entries in insertion order; a key occurs once. *)

Section counter_items.
Context {K : Type} `{EqDecision K}.

Implicit Types (k : K) (v : Z) (l : list (K * Z)).

(** [d.get(k)] *)
Fixpoint lookup_items k l : option Z :=
  match l with
  | [] => None
  | (k', v') :: l' => if decide (k = k') then Some v' else lookup_items k l'
  end.

(** [d[k] = v]: an existing key keeps its place, a new key goes last. *)
Fixpoint set_items k v l : list (K * Z) :=
  match l with
  | [] => [(k, v)]
  | (k', v') :: l' =>
      if decide (k = k') then (k', v) :: l' else (k', v') :: set_items k v l'
  end.

(** [c[k]], which is 0 for a missing key. *)
Definition get_items k l : Z := default 0 (lookup_items k l).

(** [c[k] += 1] *)
Definition incr_items k l : list (K * Z) := set_items k (get_items k l + 1) l.

(** [c.update(other)]: [for elem, count in other.items():
    c[elem] = count + c.get(elem, 0)]; on an empty [c] the library copies
    [other] instead, which gives the same entries in the same order. *)
Definition update_items l (other : list (K * Z)) : list (K * Z) :=
  fold_left (λ acc e, set_items e.1 (e.2 + get_items e.1 acc) acc) other l.

(** [sorted(items, key=itemgetter(1), reverse=True)]: by descending count;
    the sort is stable, entries with equal counts keep their order. *)
Fixpoint insert_desc (e : K * Z) l : list (K * Z) :=
  match l with
  | [] => [e]
  | e' :: l' => if e'.2 <=? e.2 then e :: l else e' :: insert_desc e l'
  end.

Definition sort_desc l : list (K * Z) := foldr insert_desc [] l.

(** [heapq.nlargest(n, items, key=itemgetter(1))]: the first [n] entries
    of the stable descending sort, none when [n] is zero or negative. *)
Definition nlargest (n : Z) l : list (K * Z) := take (Z.to_nat n) (sort_desc l).

Lemma set_items_keys k v l :
  (set_items k v l).*1 = if decide (k ∈ l.*1) then l.*1 else l.*1 ++ [k].
Proof.
  induction l as [|[k' v'] l IH].
  - destruct (decide (k ∈ ([] : list (K * Z)).*1)) as [Hin|_]; [|done].
    by apply elem_of_nil in Hin.
  - cbn [set_items]. rewrite fmap_cons. cbn [fst].
    destruct (decide (k = k')) as [->|Hne].
    + rewrite fmap_cons. cbn [fst].
      destruct (decide (k' ∈ k' :: l.*1)) as [_|Hn]; [done |].
      exfalso. apply Hn. by left.
    + rewrite fmap_cons, IH. cbn [fst].
      destruct (decide (k ∈ l.*1)) as [Hin|Hin];
        destruct (decide (k ∈ k' :: l.*1)) as [Hin'|Hin']; try done.
      * exfalso. apply Hin'. by right.
      * apply elem_of_cons in Hin' as [?|?]; done.
Qed.

Lemma set_items_NoDup k v l : NoDup (l.*1) → NoDup ((set_items k v l).*1).
Proof.
  intros Hl. rewrite set_items_keys. case_decide; [done |].
  apply NoDup_app. split_and!; [done | | apply NoDup_singleton].
  intros x Hx ->%list_elem_of_singleton. done.
Qed.

Lemma lookup_set_items k k' v l :
  lookup_items k' (set_items k v l) =
  if decide (k' = k) then Some v else lookup_items k' l.
Proof.
  induction l as [|[k0 v0] l IH]; simpl.
  - by repeat case_decide.
  - destruct (decide (k = k0)) as [->|Hne]; simpl.
    + repeat case_decide; congruence.
    + rewrite IH. repeat case_decide; congruence.
Qed.

Lemma get_set_items k k' v l :
  get_items k' (set_items k v l) = if decide (k' = k) then v else get_items k' l.
Proof. unfold get_items. rewrite lookup_set_items. by case_decide. Qed.

Lemma get_incr_items k k' l :
  get_items k' (incr_items k l) =
  get_items k' l + (if decide (k' = k) then 1 else 0).
Proof.
  unfold incr_items. rewrite get_set_items.
  case_decide; [by subst | lia].
Qed.

Lemma lookup_items_None k l : lookup_items k l = None ↔ k ∉ l.*1.
Proof.
  induction l as [|[k' v'] l IH]; simpl.
  - split; [intros _; apply not_elem_of_nil | done].
  - case_decide as Hk; subst.
    + split; [done | intros []; by left].
    + rewrite IH. split.
      * intros Hn [?|?]%elem_of_cons; done.
      * intros Hn Hin. apply Hn. by right.
Qed.

Lemma update_items_NoDup l other : NoDup (l.*1) → NoDup ((update_items l other).*1).
Proof.
  revert l. induction other as [|e other IH]; intros l Hl; [done |].
  simpl. apply IH. by apply set_items_NoDup.
Qed.

(** After [update], a key holds the sum of the two sides, with the side
    that lacks the key contributing nothing. *)
Definition sum_opt (a b : option Z) : option Z :=
  match a, b with
  | Some x, Some y => Some (y + x)
  | Some x, None => Some x
  | None, Some y => Some (y + 0)
  | None, None => None
  end.

Lemma lookup_update_items k l other :
  NoDup (other.*1) →
  lookup_items k (update_items l other) =
  sum_opt (lookup_items k l) (lookup_items k other).
Proof.
  revert l. induction other as [|[k0 v0] other IH]; intros l Hnd.
  - simpl. by destruct (lookup_items k l).
  - apply NoDup_cons in Hnd as [Hk0 Hnd]. simpl.
    rewrite IH by done. rewrite lookup_set_items.
    destruct (decide (k = k0)) as [->|Hne].
    + assert (lookup_items k0 other = None) as -> by by apply lookup_items_None.
      unfold get_items. by destruct (lookup_items k0 l).
    + done.
Qed.

Lemma get_update_items k l other :
  NoDup (other.*1) →
  get_items k (update_items l other) = get_items k l + get_items k other.
Proof.
  intros Hnd. unfold get_items. rewrite lookup_update_items by done.
  destruct (lookup_items k l), (lookup_items k other); simpl; lia.
Qed.

End counter_items.

(** The counter proper: entries with pairwise distinct keys. *)
Record Counter (K : Type) `{EqDecision K} : Type := mkCounter {
  items : list (K * Z);
  items_nodup : bool_decide (NoDup (items.*1))
}.

Arguments mkCounter {K _} items items_nodup.
Arguments items {K _} c.
Arguments items_nodup {K _} c.

Section counter.
Context {K : Type} `{EqDecision K}.

Implicit Types (k : K) (c : Counter K).

Lemma items_NoDup c : NoDup ((items c).*1).
Proof. exact (bool_decide_unpack _ (items_nodup c)). Qed.

Lemma counter_eq c1 c2 : items c1 = items c2 → c1 = c2.
Proof.
  destruct c1 as [l1 H1], c2 as [l2 H2]; simpl. intros ->.
  f_equal. apply proof_irrel.
Qed.

(** [Counter()] *)
Definition empty_counter : Counter K :=
  mkCounter [] (bool_decide_pack _ (NoDup_nil_2 : NoDup (([] : list (K * Z)).*1))).

(** [c[k]] *)
Definition get k c : Z := get_items k (items c).

(** [c.get(k)], [None] for a missing key. *)
Definition lookup_key k c : option Z := lookup_items k (items c).

(** [c[k] += 1] *)
Definition incr k c : Counter K :=
  mkCounter (incr_items k (items c))
    (bool_decide_pack _ (set_items_NoDup k _ _ (items_NoDup c))).

(** [c.update(other)] *)
Definition update c (other : Counter K) : Counter K :=
  mkCounter (update_items (items c) (items other))
    (bool_decide_pack _ (update_items_NoDup _ (items other) (items_NoDup c))).

(** [c.most_common(n)] *)
Definition most_common (n : Z) c : list (K * Z) := nlargest n (items c).

(** [len(c)], the number of keys. *)
Definition size_counter c : Z := Z.of_nat (length (items c)).

(** [c1 == c2] on dictionaries: the same keys with the same values, in
    whatever order they were inserted. *)
Definition counter_equiv c1 c2 : Prop := ∀ k, lookup_key k c1 = lookup_key k c2.

Lemma get_incr k k' c :
  get k' (incr k c) = get k' c + (if decide (k' = k) then 1 else 0).
Proof. apply get_incr_items. Qed.

Lemma get_update k c other : get k (update c other) = get k c + get k other.
Proof. apply get_update_items, items_NoDup. Qed.

Lemma lookup_update k c other :
  lookup_key k (update c other) = sum_opt (lookup_key k c) (lookup_key k other).
Proof. apply lookup_update_items, items_NoDup. Qed.

Lemma get_empty k : get k empty_counter = 0.
Proof. done. Qed.

Lemma update_comm c1 c2 : counter_equiv (update c1 c2) (update c2 c1).
Proof.
  intros k. rewrite !lookup_update.
  destruct (lookup_key k c1), (lookup_key k c2); simpl; f_equal; lia.
Qed.

Lemma update_assoc c1 c2 c3 :
  counter_equiv (update (update c1 c2) c3) (update c1 (update c2 c3)).
Proof.
  intros k. rewrite !lookup_update.
  destruct (lookup_key k c1), (lookup_key k c2), (lookup_key k c3);
    simpl; f_equal; lia.
Qed.

End counter.

(** ** The statistics record *)

Record Stats : Type := mkStats {
  triples : Z;
  subjects : gset string;
  objects : gset string;
  relations : gset string;
  subject_counter : Counter string;
  object_counter : Counter string;
  entity_counter : Counter string;
  relation_counter : Counter string;
  year_counter : Counter Z;
  temporal_marker_counter : Counter string;
  temporal_records : Z;
  min_date : option date;
  max_date : option date;
  min_year : option Z;
  max_year : option Z
}.

(** Assignments to one attribute. *)
Definition set_triples v (s : Stats) : Stats :=
  mkStats v (subjects s) (objects s) (relations s) (subject_counter s) (object_counter s)
    (entity_counter s) (relation_counter s) (year_counter s) (temporal_marker_counter s)
    (temporal_records s) (min_date s) (max_date s) (min_year s) (max_year s).
Definition set_subjects v (s : Stats) : Stats :=
  mkStats (triples s) v (objects s) (relations s) (subject_counter s) (object_counter s)
    (entity_counter s) (relation_counter s) (year_counter s) (temporal_marker_counter s)
    (temporal_records s) (min_date s) (max_date s) (min_year s) (max_year s).
Definition set_objects v (s : Stats) : Stats :=
  mkStats (triples s) (subjects s) v (relations s) (subject_counter s) (object_counter s)
    (entity_counter s) (relation_counter s) (year_counter s) (temporal_marker_counter s)
    (temporal_records s) (min_date s) (max_date s) (min_year s) (max_year s).
Definition set_relations v (s : Stats) : Stats :=
  mkStats (triples s) (subjects s) (objects s) v (subject_counter s) (object_counter s)
    (entity_counter s) (relation_counter s) (year_counter s) (temporal_marker_counter s)
    (temporal_records s) (min_date s) (max_date s) (min_year s) (max_year s).
Definition set_subject_counter v (s : Stats) : Stats :=
  mkStats (triples s) (subjects s) (objects s) (relations s) v (object_counter s)
    (entity_counter s) (relation_counter s) (year_counter s) (temporal_marker_counter s)
    (temporal_records s) (min_date s) (max_date s) (min_year s) (max_year s).
Definition set_object_counter v (s : Stats) : Stats :=
  mkStats (triples s) (subjects s) (objects s) (relations s) (subject_counter s) v
    (entity_counter s) (relation_counter s) (year_counter s) (temporal_marker_counter s)
    (temporal_records s) (min_date s) (max_date s) (min_year s) (max_year s).
Definition set_entity_counter v (s : Stats) : Stats :=
  mkStats (triples s) (subjects s) (objects s) (relations s) (subject_counter s) (object_counter s)
    v (relation_counter s) (year_counter s) (temporal_marker_counter s)
    (temporal_records s) (min_date s) (max_date s) (min_year s) (max_year s).
Definition set_relation_counter v (s : Stats) : Stats :=
  mkStats (triples s) (subjects s) (objects s) (relations s) (subject_counter s) (object_counter s)
    (entity_counter s) v (year_counter s) (temporal_marker_counter s)
    (temporal_records s) (min_date s) (max_date s) (min_year s) (max_year s).
Definition set_year_counter v (s : Stats) : Stats :=
  mkStats (triples s) (subjects s) (objects s) (relations s) (subject_counter s) (object_counter s)
    (entity_counter s) (relation_counter s) v (temporal_marker_counter s)
    (temporal_records s) (min_date s) (max_date s) (min_year s) (max_year s).
Definition set_temporal_marker_counter v (s : Stats) : Stats :=
  mkStats (triples s) (subjects s) (objects s) (relations s) (subject_counter s) (object_counter s)
    (entity_counter s) (relation_counter s) (year_counter s) v
    (temporal_records s) (min_date s) (max_date s) (min_year s) (max_year s).
Definition set_temporal_records v (s : Stats) : Stats :=
  mkStats (triples s) (subjects s) (objects s) (relations s) (subject_counter s) (object_counter s)
    (entity_counter s) (relation_counter s) (year_counter s) (temporal_marker_counter s)
    v (min_date s) (max_date s) (min_year s) (max_year s).
Definition set_min_date v (s : Stats) : Stats :=
  mkStats (triples s) (subjects s) (objects s) (relations s) (subject_counter s) (object_counter s)
    (entity_counter s) (relation_counter s) (year_counter s) (temporal_marker_counter s)
    (temporal_records s) v (max_date s) (min_year s) (max_year s).
Definition set_max_date v (s : Stats) : Stats :=
  mkStats (triples s) (subjects s) (objects s) (relations s) (subject_counter s) (object_counter s)
    (entity_counter s) (relation_counter s) (year_counter s) (temporal_marker_counter s)
    (temporal_records s) (min_date s) v (min_year s) (max_year s).
Definition set_min_year v (s : Stats) : Stats :=
  mkStats (triples s) (subjects s) (objects s) (relations s) (subject_counter s) (object_counter s)
    (entity_counter s) (relation_counter s) (year_counter s) (temporal_marker_counter s)
    (temporal_records s) (min_date s) (max_date s) v (max_year s).
Definition set_max_year v (s : Stats) : Stats :=
  mkStats (triples s) (subjects s) (objects s) (relations s) (subject_counter s) (object_counter s)
    (entity_counter s) (relation_counter s) (year_counter s) (temporal_marker_counter s)
    (temporal_records s) (min_date s) (max_date s) (min_year s) v.

Definition guess_dataset_type (dataset_name : string) : string :=
  let name := PyStr.lower dataset_name in
  if PyStr.contains "icews" name then "icews"
  else if PyStr.contains "wikidata" name then "wikidata"
  else if PyStr.contains "yago" name then "yago"
  else "generic".

Definition init_stats : Stats :=
  mkStats 0 ∅ ∅ ∅ empty_counter empty_counter empty_counter empty_counter
    empty_counter empty_counter 0 None None None None.

(** ** Merging *)

(** [cur is None or x < cur] *)
Definition none_or_lt {A : Type} (ltb : A → A → bool) (x : A) (cur : option A) : bool :=
  match cur with
  | None => true
  | Some c => ltb x c
  end.

(** [cur is None or x > cur] *)
Definition none_or_gt {A : Type} (ltb : A → A → bool) (x : A) (cur : option A) : bool :=
  match cur with
  | None => true
  | Some c => ltb c x
  end.

(** [cur is None or (x is not None and x > cur)] *)
Definition none_or_some_gt {A : Type} (ltb : A → A → bool) (x cur : option A) : bool :=
  match cur with
  | None => true
  | Some c => match x with
              | None => false
              | Some x' => ltb c x'
              end
  end.

(** [merge_stats(acc, other)]: the value of [acc] after the call. *)
Definition merge_stats (acc other : Stats) : Stats :=
  let acc := set_triples (triples acc + triples other) acc in
  let acc := set_subjects (subjects acc ∪ subjects other) acc in
  let acc := set_objects (objects acc ∪ objects other) acc in
  let acc := set_relations (relations acc ∪ relations other) acc in
  let acc := set_subject_counter (update (subject_counter acc) (subject_counter other)) acc in
  let acc := set_object_counter (update (object_counter acc) (object_counter other)) acc in
  let acc := set_entity_counter (update (entity_counter acc) (entity_counter other)) acc in
  let acc := set_relation_counter (update (relation_counter acc) (relation_counter other)) acc in
  let acc := set_year_counter (update (year_counter acc) (year_counter other)) acc in
  let acc := set_temporal_marker_counter
               (update (temporal_marker_counter acc) (temporal_marker_counter other)) acc in
  let acc := set_temporal_records (temporal_records acc + temporal_records other) acc in
  let acc :=
    match min_date other with
    | Some other_min =>
        let acc := if none_or_lt date_ltb other_min (min_date acc)
                   then set_min_date (min_date other) acc else acc in
        if none_or_some_gt date_ltb (max_date other) (max_date acc)
        then set_max_date (max_date other) acc else acc
    | None => acc
    end in
  match min_year other with
  | Some other_min =>
      let acc := if none_or_lt Z.ltb other_min (min_year acc)
                 then set_min_year (min_year other) acc else acc in
      if none_or_some_gt Z.ltb (max_year other) (max_year acc)
      then set_max_year (max_year other) acc else acc
  | None => acc
  end.

(** ** Temporal columns *)

(** [tokens[i]], used only under a guard on [len(tokens)]. *)
Definition tok (tokens : list string) (i : nat) : string := nth i tokens "".

(** The year bookkeeping shared by the two marker conventions. *)
Definition note_year (y : Z) (stats : Stats) : Stats :=
  let stats := set_year_counter (incr y (year_counter stats)) stats in
  let stats := if none_or_lt Z.ltb y (min_year stats)
               then set_min_year (Some y) stats else stats in
  if none_or_gt Z.ltb y (max_year stats)
  then set_max_year (Some y) stats else stats.

(** The arguments of the two [strip] calls of the fact-extraction branch:
    the angle brackets with the double quote, and the double quote alone. *)
Definition angle_quote_chars : string := String "<" (String ">" (String PyStr.dquote "")).
Definition quote_chars : string := String PyStr.dquote "".

Definition parse_temporal_tokens (tokens : list string) (dataset_type : string)
    (stats : Stats) : result Stats :=
  if decide (dataset_type = "icews") then
    if (4 <=? length tokens)%nat then
      let date_str := tok tokens 3 in
      match Strptime.strptime_ymd date_str with
      | Raise ValueError => Ok stats
      | Raise e => Raise e
      | Ok date_value =>
          let stats := set_year_counter (incr (year date_value) (year_counter stats)) stats in
          let stats := if none_or_lt date_ltb date_value (min_date stats)
                       then set_min_date (Some date_value) stats else stats in
          let stats := if none_or_gt date_ltb date_value (max_date stats)
                       then set_max_date (Some date_value) stats else stats in
          Ok stats
      end
    else Ok stats
  else if decide (dataset_type = "wikidata") then
    if (5 <=? length tokens)%nat then
      let marker := tok tokens 3 in
      let year_token := PyStr.strip (tok tokens 4) in
      let stats := set_temporal_marker_counter
                     (incr marker (temporal_marker_counter stats)) stats in
      let stats := set_temporal_records (temporal_records stats + 1) stats in
      if decide (year_token = "") then Ok stats
      else
        match PyStr.int year_token with
        | Raise ValueError => Ok stats
        | Raise e => Raise e
        | Ok y => Ok (note_year y stats)
        end
    else Ok stats
  else if decide (dataset_type = "yago") then
    if (5 <=? length tokens)%nat then
      let marker := PyStr.strip_chars angle_quote_chars (tok tokens 3) in
      let date_token := PyStr.strip_chars quote_chars (tok tokens 4) in
      let stats := set_temporal_marker_counter
                     (incr marker (temporal_marker_counter stats)) stats in
      let stats := set_temporal_records (temporal_records stats + 1) stats in
      let digits := PyStr.digits_of date_token in
      if 4 <=? PyStr.len digits then
        y ← PyStr.int (PyStr.prefix 4 digits);
        Ok (note_year y stats)
      else Ok stats
    else Ok stats
  else Ok stats.

(** ** Accumulating one file *)

(** The body of the loop over the lines of a file. *)
Definition process_line (dataset_type : string) (stats : Stats) (raw_line : string)
    : result Stats :=
  let line := PyStr.strip raw_line in
  if decide (line = "") then Ok stats
  else
    let tokens := PyStr.split PyStr.tab line in
    if (length tokens <? 3)%nat then Ok stats
    else
      let subj := tok tokens 0 in
      let rel := tok tokens 1 in
      let obj := tok tokens 2 in
      let stats := set_triples (triples stats + 1) stats in
      let stats := set_subjects ({[subj]} ∪ subjects stats) stats in
      let stats := set_objects ({[obj]} ∪ objects stats) stats in
      let stats := set_relations ({[rel]} ∪ relations stats) stats in
      let stats := set_subject_counter (incr subj (subject_counter stats)) stats in
      let stats := set_object_counter (incr obj (object_counter stats)) stats in
      let stats := set_entity_counter (incr subj (entity_counter stats)) stats in
      let stats := set_entity_counter (incr obj (entity_counter stats)) stats in
      let stats := set_relation_counter (incr rel (relation_counter stats)) stats in
      parse_temporal_tokens tokens dataset_type stats.

(** The loop itself: an uncaught exception ends it. *)
Fixpoint process_lines (dataset_type : string) (stats : Stats) (lines : list string)
    : result Stats :=
  match lines with
  | [] => Ok stats
  | raw_line :: rest =>
      stats' ← process_line dataset_type stats raw_line;
      process_lines dataset_type stats' rest
  end.

(** ** Summaries *)

(** [date.isoformat()]: [YYYY-MM-DD], zero padded. *)
Definition zero_pad (width : nat) (n : Z) : string :=
  let s := pretty n in
  PyStr.str (replicate (width - String.length s) "0"%char) +:+ s.

Definition isoformat (d : date) : string :=
  zero_pad 4 (year d) +:+ "-" +:+ zero_pad 2 (month d) +:+ "-" +:+ zero_pad 2 (day d).

(** The dictionary that [summarize] returns, one field per key; the keys
    [triples], [temporal_records], [min_date], [max_date], [min_year] and
    [max_year] carry the prefix [sum_] here. *)
Record Summary : Type := mkSummary {
  sum_triples : Z;
  unique_subjects : Z;
  unique_objects : Z;
  unique_relations : Z;
  top_entities : list (string * Z);
  top_subjects : list (string * Z);
  top_objects : list (string * Z);
  top_relations : list (string * Z);
  top_years : list (Z * Z);
  temporal_markers : list (string * Z);
  sum_temporal_records : Z;
  sum_min_date : option string;
  sum_max_date : option string;
  sum_min_year : option Z;
  sum_max_year : option Z
}.

Definition summarize (stats : Stats) (top_n : Z) : Summary :=
  {| sum_triples := triples stats;
     unique_subjects := Z.of_nat (size (subjects stats));
     unique_objects := Z.of_nat (size (objects stats));
     unique_relations := Z.of_nat (size (relations stats));
     top_entities := most_common top_n (entity_counter stats);
     top_subjects := most_common top_n (subject_counter stats);
     top_objects := most_common top_n (object_counter stats);
     top_relations := most_common top_n (relation_counter stats);
     top_years := most_common top_n (year_counter stats);
     temporal_markers := most_common top_n (temporal_marker_counter stats);
     sum_temporal_records := temporal_records stats;
     sum_min_date := isoformat <$> min_date stats;
     sum_max_date := isoformat <$> max_date stats;
     sum_min_year := min_year stats;
     sum_max_year := max_year stats |}.

(** ** The file system and the orchestrator *)

(** What a path names: a text file with its lines, or a directory with its
    entries by name. *)
#[local] Set Warnings "-register-all".

Inductive node : Type :=
  | File (lines : list string)
  | Dir (entries : list (string * node)).

(** A run reads the file system and may raise; it leaves behind the list of
    the files it opened, oldest first. *)
Definition io (A : Type) : Type := list string → result A * list string.

Definition io_ret {A : Type} (a : A) : io A := λ opened, (Ok a, opened).

Definition io_raise {A : Type} (e : exn) : io A := λ opened, (Raise e, opened).

Definition io_bind {A B : Type} (m : io A) (k : A → io B) : io B := λ opened,
  match m opened with
  | (Ok a, opened') => k a opened'
  | (Raise e, opened') => (Raise e, opened')
  end.

Notation "'do' x <- m 'in' k" := (io_bind m (λ x, k))
  (at level 10, x name, m at level 100, k at level 200, only parsing).

Definition io_lift {A : Type} (r : result A) : io A := λ opened, (r, opened).

(** [os.path.join(a, b)] for a relative name [b]. *)
Definition path_join (a b : string) : string :=
  if decide (a = "") then b
  else if PyStr.endswith "/" a then a +:+ b
  else a +:+ "/" +:+ b.

Fixpoint entry_named {V : Type} (name : string) (entries : list (string * V)) : option V :=
  match entries with
  | [] => None
  | (name', x) :: rest => if decide (name = name') then Some x else entry_named name rest
  end.

(** The entry [name] of what [parent] names. *)
Definition child (parent : option node) (name : string) : option node :=
  match parent with
  | Some (Dir entries) => entry_named name entries
  | _ => None
  end.

(** [os.listdir(path)] *)
Definition listdir (at_path : option node) : io (list string) :=
  match at_path with
  | None => io_raise FileNotFoundError
  | Some (File _) => io_raise NotADirectoryError
  | Some (Dir entries) => io_ret (entries.*1)
  end.

(** [os.path.isdir(path)] *)
Definition isdir (at_path : option node) : bool :=
  match at_path with
  | Some (Dir _) => true
  | _ => false
  end.

(** [open(path, "r")] and the lines read from it. *)
Definition open_lines (path : string) (at_path : option node) : io (list string) :=
  λ opened,
    match at_path with
    | None => (Raise FileNotFoundError, opened ++ [path])
    | Some (Dir _) => (Raise IsADirectoryError, opened ++ [path])
    | Some (File lines) => (Ok lines, opened ++ [path])
    end.

Definition process_file (path : string) (at_path : option node) (dataset_type : string)
    : io Stats :=
  do lines <- open_lines path at_path in
  io_lift (process_lines dataset_type init_stats lines).

Definition discover_datasets (base : option node) (include : option (list string))
    : io (list string) :=
  do names <- listdir base in
  let entries := PyStr.sorted (filter (λ name, isdir (child base name) = true) names) in
  match include with
  | Some (item :: items) =>
      let include_lower := map PyStr.lower (item :: items) in
      io_ret (filter (λ name, PyStr.lower name ∈ include_lower) entries)
  | _ => io_ret entries
  end.

(** [d[k] = v] on a dictionary kept in insertion order. *)
Fixpoint dict_set {V : Type} (k : string) (v : V) (d : list (string * V)) : list (string * V) :=
  match d with
  | [] => [(k, v)]
  | (k', v') :: d' => if decide (k = k') then (k', v) :: d' else (k', v') :: dict_set k v d'
  end.

(** The loop over the split files of one dataset. *)
Fixpoint analyze_files (dataset_dir : string) (dir : option node) (dataset_type : string)
    (top_n : Z) (per_file : bool) (filenames : list string)
    (aggregate : Stats) (file_summaries : list (string * Summary))
    : io (Stats * list (string * Summary)) :=
  match filenames with
  | [] => io_ret (aggregate, file_summaries)
  | filename :: rest =>
      if negb (PyStr.endswith ".txt" filename)
      then analyze_files dataset_dir dir dataset_type top_n per_file rest aggregate file_summaries
      else
        let path := path_join dataset_dir filename in
        do stats <- process_file path (child dir filename) dataset_type in
        let aggregate := merge_stats aggregate stats in
        let file_summaries :=
          if per_file then dict_set filename (summarize stats top_n) file_summaries
          else file_summaries in
        analyze_files dataset_dir dir dataset_type top_n per_file rest aggregate file_summaries
  end.

(** One entry of the result: the keys [aggregate] and [files]. *)
Record DatasetReport : Type := mkReport {
  aggregate : Summary;
  files : list (string * Summary)
}.

(** The loop over the datasets. *)
Fixpoint analyze_datasets (base_dir : string) (base : option node) (top_n : Z)
    (per_file : bool) (datasets : list string) (results : list (string * DatasetReport))
    : io (list (string * DatasetReport)) :=
  match datasets with
  | [] => io_ret results
  | dataset :: rest =>
      let dataset_dir := path_join base_dir dataset in
      let dir := child base dataset in
      let dataset_type := guess_dataset_type dataset in
      do filenames <- listdir dir in
      do folded <- analyze_files dataset_dir dir dataset_type top_n per_file
                     (PyStr.sorted filenames) init_stats [] in
      let results :=
        dict_set dataset (mkReport (summarize folded.1 top_n) folded.2) results in
      analyze_datasets base_dir base top_n per_file rest results
  end.

Definition no_datasets_message (base_dir : string) : string :=
  "No dataset folders found under " +:+ base_dir +:+ ".".

(** [analyze(base_dir, top_n, include, per_file)], with [base] what
    [base_dir] names. *)
Definition analyze (base_dir : string) (base : option node) (top_n : Z)
    (include : option (list string)) (per_file : bool)
    : io (list (string * DatasetReport)) :=
  do datasets <- discover_datasets base include in
  match datasets with
  | [] => io_raise (SystemExit (no_datasets_message base_dir))
  | _ :: _ => analyze_datasets base_dir base top_n per_file datasets []
  end.

(** ** The console report *)

(** [sep.join(parts)] *)
Definition py_join (sep : string) (parts : list string) : string :=
  match parts with
  | [] => ""
  | p :: ps => fold_left (λ acc q, acc +:+ sep +:+ q) ps p
  end.

(** The digits of a number, least significant first, with a comma after
    every third digit that has a digit after it. *)
Fixpoint group3 (rev_digits : list ascii) : list ascii :=
  match rev_digits with
  | a :: b :: c :: (_ :: _) as rest => a :: b :: c :: ","%char :: group3 rest
  | _ => rev_digits
  end.

(** [f"{n:,}"] on an [int]. *)
Definition thousands (n : Z) : string :=
  (if n <? 0 then "-" else "") +:+
  PyStr.str (rev (group3 (rev (PyStr.chars (pretty (Z.abs n)))))).

(** [f"{x}"] on an optional value: [None] prints as the word. *)
Definition str_or_None {A : Type} (show : A → string) (o : option A) : string :=
  match o with
  | Some x => show x
  | None => "None"
  end.

(** Truth of an optional string: [None] and the empty string are false. *)
Definition truthy (o : option string) : bool :=
  match o with
  | Some s => negb (bool_decide (s = ""))
  | None => false
  end.

(** [f"{key} ({cnt:,})"] *)
Definition ranked_text {K : Type} (show : K → string) (e : K * Z) : string :=
  show e.1 +:+ " (" +:+ thousands e.2 +:+ ")".

(** [top_n] is a parameter that the body never reads. *)
Definition humanize (dataset_name : string) (summary : Summary) (top_n : Z) : list string :=
  let lines := [] in
  let lines := lines ++ ["=== " +:+ dataset_name +:+ " ==="] in
  let lines := lines ++
    ["Total triples: " +:+ thousands (sum_triples summary)
     +:+ "; unique subjects: " +:+ thousands (unique_subjects summary)
     +:+ "; unique objects: " +:+ thousands (unique_objects summary)
     +:+ "; relations: " +:+ thousands (unique_relations summary)] in
  let lines :=
    match top_entities summary with
    | [] => lines
    | _ :: _ =>
        lines ++ ["Top entities: "
                  +:+ py_join ", " (map (ranked_text id) (top_entities summary))]
    end in
  let lines :=
    match top_relations summary with
    | [] => lines
    | _ :: _ =>
        lines ++ ["Top relations: "
                  +:+ py_join ", " (map (ranked_text id) (top_relations summary))]
    end in
  let lines :=
    match top_years summary with
    | [] => lines
    | _ :: _ =>
        lines ++ ["Most active years: "
                  +:+ py_join ", " (map (ranked_text pretty) (top_years summary))]
    end in
  let lines :=
    match temporal_markers summary with
    | [] => lines
    | _ :: _ =>
        lines ++ ["Temporal markers: "
                  +:+ py_join ", " (map (ranked_text id) (temporal_markers summary))
                  +:+ "; with explicit temporal info: "
                  +:+ thousands (sum_temporal_records summary)]
    end in
  let lines :=
    if truthy (sum_min_date summary) || truthy (sum_max_date summary)
    then lines ++ ["Date range: " +:+ str_or_None id (sum_min_date summary)
                   +:+ " to " +:+ str_or_None id (sum_max_date summary)]
    else lines in
  let lines :=
    if bool_decide (sum_min_year summary ≠ None) || bool_decide (sum_max_year summary ≠ None)
    then lines ++ ["Year span: " +:+ str_or_None pretty (sum_min_year summary)
                   +:+ " to " +:+ str_or_None pretty (sum_max_year summary)]
    else lines in
  lines.

(** * Vocabulary of the properties *)

(** Descending by count. *)
Definition count_ge {K : Type} (e1 e2 : K * Z) : Prop := e2.2 ≤ e1.2.

(** What a top-[n] ranking of the entries [l] is: the first [n] entries of
    the rearrangement of [l] that is descending by count and keeps the
    entries of equal count in the order they have in [l]. *)
Definition ranking {K : Type} (l : list (K * Z)) (n : nat) (out : list (K * Z)) : Prop :=
  ∃ full,
    full ≡ₚ l ∧
    StronglySorted count_ge full ∧
    (∀ v : Z, filter (λ x, x.2 = v) full = filter (λ x, x.2 = v) l) ∧
    out = take n full.

(** The smaller and the larger of two values. *)
Definition lesser {A : Type} (ltb : A → A → bool) (a b : A) : A := if ltb b a then b else a.
Definition greater {A : Type} (ltb : A → A → bool) (a b : A) : A := if ltb a b then b else a.

(** An absent side yields to the other; two present sides are compared. *)
Definition opt_min {A : Type} (ltb : A → A → bool) (oa ob : option A) : option A :=
  match oa, ob with
  | Some a, Some b => Some (lesser ltb a b)
  | Some a, None => Some a
  | None, ob => ob
  end.

Definition opt_max {A : Type} (ltb : A → A → bool) (oa ob : option A) : option A :=
  match oa, ob with
  | Some a, Some b => Some (greater ltb a b)
  | Some a, None => Some a
  | None, ob => ob
  end.

(** The order of dates, as a proposition. *)
Definition date_lt (a b : date) : Prop :=
  year a < year b ∨
  (year a = year b ∧ (month a < month b ∨ (month a = month b ∧ day a < day b))).

(** [a == b] on [Stats]: field by field, the counters as dictionaries. *)
Definition stats_equiv (a b : Stats) : Prop :=
  triples a = triples b ∧
  subjects a = subjects b ∧
  objects a = objects b ∧
  relations a = relations b ∧
  counter_equiv (subject_counter a) (subject_counter b) ∧
  counter_equiv (object_counter a) (object_counter b) ∧
  counter_equiv (entity_counter a) (entity_counter b) ∧
  counter_equiv (relation_counter a) (relation_counter b) ∧
  counter_equiv (year_counter a) (year_counter b) ∧
  counter_equiv (temporal_marker_counter a) (temporal_marker_counter b) ∧
  temporal_records a = temporal_records b ∧
  min_date a = min_date b ∧
  max_date a = max_date b ∧
  min_year a = min_year b ∧
  max_year a = max_year b.

(** A maximum is never present without its minimum. *)
Definition max_needs_min {A : Type} (mn mx : option A) : Prop := mx ≠ None → mn ≠ None.

Definition bounds_paired (s : Stats) : Prop :=
  max_needs_min (min_date s) (max_date s) ∧ max_needs_min (min_year s) (max_year s).

(** Two concrete values used below: one without any temporal data, one with
    a year range and a date range. *)
Definition plain_stats : Stats := set_triples 3 init_stats.

Definition ranged_stats : Stats :=
  set_min_date (Some (mkDate 2010 5 1)) (set_max_date (Some (mkDate 2011 1 9))
    (set_min_year (Some 1990) (set_max_year (Some 1995) (set_triples 2 init_stats)))).

(** A value that carries a maximal year and no minimal year. *)
Definition lone_max_stats : Stats := set_max_year (Some 2000) init_stats.

(** The number that a run of decimal digits denotes. *)
Definition decimal_value (l : list ascii) : Z :=
  fold_left (λ acc c, 10 * acc + PyStr.digit_val c) l 0.

Definition all_digits (l : list ascii) : Prop := Forall (λ c, PyStr.isdigit c = true) l.

(** The eight attributes that the accumulator sets before it calls the
    extractor. *)
Definition same_triple_part (s s' : Stats) : Prop :=
  triples s' = triples s ∧
  subjects s' = subjects s ∧
  objects s' = objects s ∧
  relations s' = relations s ∧
  subject_counter s' = subject_counter s ∧
  object_counter s' = object_counter s ∧
  entity_counter s' = entity_counter s ∧
  relation_counter s' = relation_counter s.

(** The statistics after the nine assignments that count a triple. *)
Definition count_triple (subj rel obj : string) (stats : Stats) : Stats :=
  mkStats (triples stats + 1)
    ({[subj]} ∪ subjects stats) ({[obj]} ∪ objects stats) ({[rel]} ∪ relations stats)
    (incr subj (subject_counter stats)) (incr obj (object_counter stats))
    (incr obj (incr subj (entity_counter stats))) (incr rel (relation_counter stats))
    (year_counter stats) (temporal_marker_counter stats) (temporal_records stats)
    (min_date stats) (max_date stats) (min_year stats) (max_year stats).

(** A line written as its columns, joined by tabs. *)
Fixpoint tsv (columns : list string) : string :=
  match columns with
  | [] => ""
  | [c] => c
  | c :: rest => c +:+ String PyStr.tab (tsv rest)
  end.

Definition entity_sum (s : Stats) : Prop :=
  ∀ e, get e (entity_counter s) = get e (subject_counter s) + get e (object_counter s).


(** The counter {a: 5, b: 5, c: 1}, keys inserted in that order. *)
Definition abc_counter : Counter string :=
  incr "a" (incr "a" (incr "a" (incr "a" (incr "b" (incr "b" (incr "b" (incr "b"
    (incr "c" (incr "b" (incr "a" empty_counter)))))))))).

(** What the summary holds for one counter: the top [top_n] entries of the
    stable descending ranking, and as many entries as there are keys, up to
    [top_n], none for a negative [top_n]. *)
Definition ranked {K : Type} `{EqDecision K} (c : Counter K) (top_n : Z)
    (out : list (K * Z)) : Prop :=
  ranking (items c) (Z.to_nat top_n) out ∧
  Z.of_nat (length out) = Z.min (Z.max top_n 0) (size_counter c).

(** A name that discovery keeps: an entry of the base directory that is a
    directory and, when a non-empty filter is given, whose lower-cased name
    is among the lower-cased names of the filter. *)
Definition selected (entries : list (string * node)) (include : option (list string))
    (name : string) : Prop :=
  name ∈ entries.*1 ∧
  isdir (child (Some (Dir entries)) name) = true ∧
  match include with
  | Some (item :: items) => PyStr.lower name ∈ map PyStr.lower (item :: items)
  | _ => True
  end.

(** ** Vocabulary of the further properties *)

(** What one accepted line carries in its trailing columns: nothing, a date
    (event calendar), or a marker with or without a year (linked data and
    fact extraction). *)
Inductive temporal : Type :=
  | NoTemporal
  | Dated (d : date)
  | Marked (marker : string) (y : option Z).

(** The temporal content of the columns of a line, by convention. *)
Definition extract (tokens : list string) (dataset_type : string) : temporal :=
  if decide (dataset_type = "icews") then
    if (4 <=? length tokens)%nat then
      match Strptime.strptime_ymd (tok tokens 3) with
      | Ok d => Dated d
      | Raise _ => NoTemporal
      end
    else NoTemporal
  else if decide (dataset_type = "wikidata") then
    if (5 <=? length tokens)%nat then
      Marked (tok tokens 3)
        (match PyStr.int (PyStr.strip (tok tokens 4)) with
         | Ok y => Some y
         | Raise _ => None
         end)
    else NoTemporal
  else if decide (dataset_type = "yago") then
    if (5 <=? length tokens)%nat then
      let digits := filter (λ c, PyStr.isdigit c = true)
                      (PyStr.chars (PyStr.strip_chars quote_chars (tok tokens 4))) in
      Marked (PyStr.strip_chars angle_quote_chars (tok tokens 3))
        (if decide (4 ≤ length digits)%nat then Some (decimal_value (take 4 digits)) else None)
    else NoTemporal
  else NoTemporal.

(** The parts of a temporal content. *)
Definition date_of (t : temporal) : option date :=
  match t with Dated d => Some d | _ => None end.

Definition marker_of (t : temporal) : option string :=
  match t with Marked m _ => Some m | _ => None end.

Definition year_of (t : temporal) : option Z :=
  match t with Marked _ y => y | _ => None end.

(** The key of the year counter that the content increments. *)
Definition counted_year (t : temporal) : option Z :=
  match t with
  | Dated d => Some (year d)
  | Marked _ y => y
  | NoTemporal => None
  end.

(** [c[k] += 1] when there is a [k]. *)
Definition incr_opt {K : Type} `{EqDecision K} (o : option K) (c : Counter K) : Counter K :=
  match o with
  | Some k => incr k c
  | None => c
  end.

(** The statistics after a temporal content has been applied. *)
Definition apply_temporal (t : temporal) (stats : Stats) : Stats :=
  mkStats (triples stats) (subjects stats) (objects stats) (relations stats)
    (subject_counter stats) (object_counter stats) (entity_counter stats)
    (relation_counter stats)
    (incr_opt (counted_year t) (year_counter stats))
    (incr_opt (marker_of t) (temporal_marker_counter stats))
    (temporal_records stats + (match marker_of t with Some _ => 1 | None => 0 end))
    (opt_min date_ltb (min_date stats) (date_of t))
    (opt_max date_ltb (max_date stats) (date_of t))
    (opt_min Z.ltb (min_year stats) (year_of t))
    (opt_max Z.ltb (max_year stats) (year_of t)).

(** What a raw line is to the accumulator: skipped, or a triple with its
    temporal content. *)
Definition line_view (dataset_type : string) (raw_line : string)
    : option (string * string * string * temporal) :=
  let tokens := PyStr.split PyStr.tab (PyStr.strip raw_line) in
  if (length tokens <? 3)%nat then None
  else Some (tok tokens 0, tok tokens 1, tok tokens 2, extract tokens dataset_type).

(** The statistics after one line. *)
Definition step (dataset_type : string) (raw_line : string) (stats : Stats) : Stats :=
  match line_view dataset_type raw_line with
  | None => stats
  | Some (subj, rel, obj, t) => apply_temporal t (count_triple subj rel obj stats)
  end.

(** The statistics after the lines of a file. *)
Definition run (dataset_type : string) (lines : list string) (stats : Stats) : Stats :=
  fold_left (λ s raw_line, step dataset_type raw_line s) lines stats.

(** The statistics of a whole file. *)
Definition file_stats (dataset_type : string) (lines : list string) : Stats :=
  run dataset_type lines init_stats.

(** [sum(c.values())] *)
Definition total {K : Type} `{EqDecision K} (c : Counter K) : Z :=
  foldr (λ e acc, e.2 + acc) 0 (items c).

(** [list(c)], the keys in insertion order. *)
Definition keys {K : Type} `{EqDecision K} (c : Counter K) : list K := (items c).*1.

(** Every count is at least 1. *)
Definition positive {K : Type} `{EqDecision K} (c : Counter K) : Prop :=
  ∀ e, e ∈ items c → 1 ≤ e.2.

(** A raw line that the accumulator counts: three columns or more once it
    is trimmed and split on tabs. *)
Definition accepted (raw_line : string) : bool :=
  (3 <=? length (PyStr.split PyStr.tab (PyStr.strip raw_line)))%nat.

(** A range is absent on both sides, or present on both with the minimum
    not above the maximum. *)
Definition range_ok {A : Type} (ltb : A → A → bool) (mn mx : option A) : Prop :=
  match mn, mx with
  | None, None => True
  | Some a, Some b => ltb b a = false
  | _, _ => False
  end.

(** [filename.endswith(".txt")] *)
Definition is_txt (filename : string) : bool := PyStr.endswith ".txt" filename.



(** The split files of a dataset directory: the names that end in [.txt],
    in sorted order. *)
Definition split_names (dir : option node) : list string :=
  match dir with
  | Some (Dir entries) => filter (λ f, is_txt f = true) (PyStr.sorted (entries.*1))
  | _ => []
  end.






(** The order of names, as a proposition. *)
Definition name_le (a b : string) : Prop := PyStr.le a b = true.


(** The range lines of a report when each range has both of its ends. *)
Definition range_lines (stats : Stats) : list string :=
  match min_date stats, max_date stats with
  | Some a, Some b => ["Date range: " +:+ isoformat a +:+ " to " +:+ isoformat b]
  | _, _ => []
  end ++
  match min_year stats, max_year stats with
  | Some a, Some b => ["Year span: " +:+ pretty a +:+ " to " +:+ pretty b]
  | _, _ => []
  end.

(** * Properties *)

(** ** The stable descending sort *)

Section sort_desc_facts.
Context {K : Type} `{EqDecision K}.

Implicit Types (e : K * Z) (l : list (K * Z)).

Lemma insert_desc_Permutation e l : insert_desc e l ≡ₚ e :: l.
Proof.
  induction l as [|e' l IH]; simpl; [done |].
  destruct (e'.2 <=? e.2); [done |].
  rewrite IH. apply Permutation_swap.
Qed.

Lemma sort_desc_Permutation l : sort_desc l ≡ₚ l.
Proof.
  induction l as [|e l IH]; simpl; [done |].
  by rewrite insert_desc_Permutation, IH.
Qed.

Lemma sort_desc_length l : length (sort_desc l) = length l.
Proof. by rewrite (Permutation_length (sort_desc_Permutation l)). Qed.

Lemma insert_desc_sorted e l :
  StronglySorted count_ge l → StronglySorted count_ge (insert_desc e l).
Proof.
  induction 1 as [|e' l Hl IH Hall]; simpl.
  - by repeat constructor.
  - destruct (Z.leb_spec (e'.2) (e.2)) as [Hle|Hgt].
    + constructor; [by constructor |].
      constructor; [done |].
      eapply Forall_impl; [exact Hall |].
      unfold count_ge. intros x Hx. lia.
    + constructor; [done |].
      rewrite insert_desc_Permutation.
      constructor; [unfold count_ge; lia | done].
Qed.

Lemma sort_desc_sorted l : StronglySorted count_ge (sort_desc l).
Proof.
  induction l as [|e l IH]; simpl; [constructor |].
  by apply insert_desc_sorted.
Qed.

(** Stability: among the entries of one count, the order is untouched. *)
Lemma insert_desc_stable (v : Z) e l :
  filter (λ x, x.2 = v) (insert_desc e l) = filter (λ x, x.2 = v) (e :: l).
Proof.
  induction l as [|e' l IH]; simpl; [done |].
  destruct (Z.leb_spec (e'.2) (e.2)) as [Hle|Hgt]; [done |].
  rewrite filter_cons, IH, !filter_cons.
  repeat case_decide; try done; lia.
Qed.

Lemma sort_desc_stable (v : Z) l :
  filter (λ x, x.2 = v) (sort_desc l) = filter (λ x, x.2 = v) l.
Proof.
  induction l as [|e l IH]; simpl; [done |].
  by rewrite insert_desc_stable, !filter_cons, IH.
Qed.

Lemma nlargest_ranking (n : Z) l : ranking l (Z.to_nat n) (nlargest n l).
Proof.
  exists (sort_desc l). split_and!; [| | |done].
  - apply sort_desc_Permutation.
  - apply sort_desc_sorted.
  - intros v. apply sort_desc_stable.
Qed.

Lemma nlargest_length (n : Z) l :
  Z.of_nat (length (nlargest n l)) = Z.min (Z.max n 0) (Z.of_nat (length l)).
Proof.
  unfold nlargest. rewrite length_take, sort_desc_length. lia.
Qed.

End sort_desc_facts.

(** ** Optional extrema over a strict total order *)

Section extrema.
Context {A : Type} (ltb : A → A → bool).
Hypothesis ltb_irrefl : ∀ a, ltb a a = false.
Hypothesis ltb_trans : ∀ a b c, ltb a b = true → ltb b c = true → ltb a c = true.
Hypothesis ltb_total : ∀ a b, ltb a b = false → ltb b a = false → a = b.

Lemma ltb_asym a b : ltb a b = true → ltb b a = false.
Proof.
  intros Hab. destruct (ltb b a) eqn:Hba; [|done].
  rewrite <- (ltb_irrefl a). symmetry. by eapply ltb_trans.
Qed.

Lemma ltb_false_trans a b c : ltb a b = false → ltb b c = false → ltb a c = false.
Proof.
  intros Hab Hbc. destruct (ltb a c) eqn:Hac; [|done].
  destruct (ltb b a) eqn:Hba.
  - rewrite <- Hbc. symmetry. by eapply ltb_trans.
  - rewrite (ltb_total _ _ Hab Hba) in Hac. congruence.
Qed.

Lemma lesser_is_min a b :
  (lesser ltb a b = a ∨ lesser ltb a b = b) ∧
  ltb a (lesser ltb a b) = false ∧ ltb b (lesser ltb a b) = false.
Proof.
  unfold lesser. destruct (ltb b a) eqn:Hba; split_and!; auto using ltb_asym.
Qed.

Lemma greater_is_max a b :
  (greater ltb a b = a ∨ greater ltb a b = b) ∧
  ltb (greater ltb a b) a = false ∧ ltb (greater ltb a b) b = false.
Proof.
  unfold greater. destruct (ltb a b) eqn:Hab; split_and!; auto using ltb_asym.
Qed.

Lemma lesser_comm a b : lesser ltb a b = lesser ltb b a.
Proof.
  unfold lesser. destruct (ltb b a) eqn:Hba, (ltb a b) eqn:Hab; try done.
  - apply ltb_asym in Hba. congruence.
  - symmetry. by apply ltb_total.
Qed.

Lemma greater_comm a b : greater ltb a b = greater ltb b a.
Proof.
  unfold greater. destruct (ltb b a) eqn:Hba, (ltb a b) eqn:Hab; try done.
  - apply ltb_asym in Hba. congruence.
  - by apply ltb_total.
Qed.

Lemma lesser_assoc a b c : lesser ltb (lesser ltb a b) c = lesser ltb a (lesser ltb b c).
Proof.
  unfold lesser.
  destruct (ltb b a) eqn:Hba, (ltb c b) eqn:Hcb; rewrite ?Hba, ?Hcb; try done.
  - by rewrite (ltb_trans _ _ _ Hcb Hba).
  - destruct (ltb c a) eqn:Hca; [|done].
    by rewrite (ltb_false_trans _ _ _ Hcb Hba) in Hca.
Qed.

Lemma greater_assoc a b c : greater ltb (greater ltb a b) c = greater ltb a (greater ltb b c).
Proof.
  unfold greater.
  destruct (ltb a b) eqn:Hab, (ltb b c) eqn:Hbc; rewrite ?Hab, ?Hbc; try done.
  - by rewrite (ltb_trans _ _ _ Hab Hbc).
  - destruct (ltb a c) eqn:Hac; [|done].
    by rewrite (ltb_false_trans _ _ _ Hab Hbc) in Hac.
Qed.

Lemma opt_min_comm oa ob : opt_min ltb oa ob = opt_min ltb ob oa.
Proof. destruct oa, ob; simpl; try done. by rewrite lesser_comm. Qed.

Lemma opt_max_comm oa ob : opt_max ltb oa ob = opt_max ltb ob oa.
Proof. destruct oa, ob; simpl; try done. by rewrite greater_comm. Qed.

Lemma opt_min_assoc oa ob oc : opt_min ltb (opt_min ltb oa ob) oc = opt_min ltb oa (opt_min ltb ob oc).
Proof. destruct oa, ob, oc; simpl; try done. by rewrite lesser_assoc. Qed.

Lemma opt_max_assoc oa ob oc : opt_max ltb (opt_max ltb oa ob) oc = opt_max ltb oa (opt_max ltb ob oc).
Proof. destruct oa, ob, oc; simpl; try done. by rewrite greater_assoc. Qed.

(** The two guarded assignments of [merge_stats], on one pair of bounds. *)
Lemma guarded_min (acc other : option A) :
  match other with
  | Some m => if none_or_lt ltb m acc then other else acc
  | None => acc
  end = opt_min ltb acc other.
Proof.
  destruct acc as [a|], other as [m|]; simpl; try done.
  unfold lesser. by destruct (ltb m a).
Qed.

Lemma guarded_max (acc other : option A) :
  (if none_or_some_gt ltb other acc then other else acc) = opt_max ltb acc other.
Proof.
  destruct acc as [a|], other as [m|]; simpl; try done.
  unfold greater. by destruct (ltb a m).
Qed.

End extrema.

Lemma Zltb_irrefl a : (a <? a) = false.
Proof. lia. Qed.

Lemma Zltb_trans a b c : (a <? b) = true → (b <? c) = true → (a <? c) = true.
Proof. lia. Qed.

Lemma Zltb_total a b : (a <? b) = false → (b <? a) = false → a = b.
Proof. lia. Qed.

Lemma lesser_Z a b : lesser Z.ltb a b = Z.min a b.
Proof. unfold lesser. destruct (Z.ltb_spec b a); lia. Qed.

Lemma greater_Z a b : greater Z.ltb a b = Z.max a b.
Proof. unfold greater. destruct (Z.ltb_spec a b); lia. Qed.

Lemma date_ltb_lt a b : date_ltb a b = true ↔ date_lt a b.
Proof. unfold date_ltb, date_lt. destruct a, b; simpl. lia. Qed.

Lemma date_ltb_nlt a b : date_ltb a b = false ↔ ¬ date_lt a b.
Proof. rewrite <- date_ltb_lt. by destruct (date_ltb a b). Qed.

Lemma date_ltb_irrefl a : date_ltb a a = false.
Proof. apply date_ltb_nlt. unfold date_lt. lia. Qed.

Lemma date_ltb_trans a b c :
  date_ltb a b = true → date_ltb b c = true → date_ltb a c = true.
Proof. rewrite !date_ltb_lt. unfold date_lt. lia. Qed.

Lemma date_ltb_total a b : date_ltb a b = false → date_ltb b a = false → a = b.
Proof.
  rewrite !date_ltb_nlt. unfold date_lt. destruct a, b; simpl.
  intros ? ?. f_equal; lia.
Qed.

(** ** The merge combinator *)

Ltac merge_fields a b :=
  destruct a, b; unfold merge_stats; simpl;
  repeat (case_match; simpl in * ); try done.

Lemma merge_stats_totals a b :
  triples (merge_stats a b) = triples a + triples b ∧
  temporal_records (merge_stats a b) = temporal_records a + temporal_records b.
Proof. merge_fields a b. Qed.

Lemma merge_stats_sets a b :
  subjects (merge_stats a b) = subjects a ∪ subjects b ∧
  objects (merge_stats a b) = objects a ∪ objects b ∧
  relations (merge_stats a b) = relations a ∪ relations b.
Proof. merge_fields a b. Qed.

Lemma merge_stats_counters a b :
  subject_counter (merge_stats a b) = update (subject_counter a) (subject_counter b) ∧
  object_counter (merge_stats a b) = update (object_counter a) (object_counter b) ∧
  entity_counter (merge_stats a b) = update (entity_counter a) (entity_counter b) ∧
  relation_counter (merge_stats a b) = update (relation_counter a) (relation_counter b) ∧
  year_counter (merge_stats a b) = update (year_counter a) (year_counter b) ∧
  temporal_marker_counter (merge_stats a b) =
    update (temporal_marker_counter a) (temporal_marker_counter b).
Proof. merge_fields a b. Qed.

(** The minima are merged without any condition. *)
Lemma merge_stats_min a b :
  min_date (merge_stats a b) = opt_min date_ltb (min_date a) (min_date b) ∧
  min_year (merge_stats a b) = opt_min Z.ltb (min_year a) (min_year b).
Proof.
  rewrite <- !guarded_min.
  destruct a, b; unfold merge_stats; simpl.
  destruct min_date1, min_year1; simpl; repeat (case_match; simpl in * ); done.
Qed.

(** The maxima are merged only under the guard on the other side's minimum:
    what the merged maximum is in general. *)
Lemma merge_stats_max_date_raw a b :
  max_date (merge_stats a b) =
  match min_date b with
  | Some _ => opt_max date_ltb (max_date a) (max_date b)
  | None => max_date a
  end.
Proof.
  rewrite <- guarded_max.
  destruct a, b; unfold merge_stats; simpl.
  destruct min_date1, min_year1; simpl; repeat (case_match; simpl in * ); done.
Qed.

Lemma merge_stats_max_year_raw a b :
  max_year (merge_stats a b) =
  match min_year b with
  | Some _ => opt_max Z.ltb (max_year a) (max_year b)
  | None => max_year a
  end.
Proof.
  rewrite <- guarded_max.
  destruct a, b; unfold merge_stats; simpl.
  destruct min_date1, min_year1; simpl; repeat (case_match; simpl in * ); done.
Qed.

Lemma merge_stats_max a b :
  bounds_paired b →
  max_date (merge_stats a b) = opt_max date_ltb (max_date a) (max_date b) ∧
  max_year (merge_stats a b) = opt_max Z.ltb (max_year a) (max_year b).
Proof.
  intros [Hd Hy]. rewrite merge_stats_max_date_raw, merge_stats_max_year_raw.
  unfold max_needs_min in *. split.
  - destruct (min_date b); [done |].
    destruct (max_date b); [by destruct Hd |]. by destruct (max_date a).
  - destruct (min_year b); [done |].
    destruct (max_year b); [by destruct Hy |]. by destruct (max_year a).
Qed.

Lemma merge_stats_paired a b :
  bounds_paired a → bounds_paired b → bounds_paired (merge_stats a b).
Proof.
  intros Ha Hb. destruct (merge_stats_min a b) as [Hmd Hmy].
  destruct (merge_stats_max a b Hb) as [Hxd Hxy].
  destruct Ha as [Had Hay], Hb as [Hbd Hby].
  unfold bounds_paired, max_needs_min in *.
  rewrite Hmd, Hmy, Hxd, Hxy. split.
  - destruct (min_date a), (min_date b), (max_date a), (max_date b); simpl; naive_solver.
  - destruct (min_year a), (min_year b), (max_year a), (max_year b); simpl; naive_solver.
Qed.

Lemma merge_stats_comm a b :
  bounds_paired a → bounds_paired b →
  stats_equiv (merge_stats a b) (merge_stats b a).
Proof.
  intros Ha Hb.
  destruct (merge_stats_totals a b) as [Ht Hr], (merge_stats_totals b a) as [Ht' Hr'].
  destruct (merge_stats_sets a b) as (Hs & Ho & Hl), (merge_stats_sets b a) as (Hs' & Ho' & Hl').
  destruct (merge_stats_counters a b) as (C1 & C2 & C3 & C4 & C5 & C6).
  destruct (merge_stats_counters b a) as (C1' & C2' & C3' & C4' & C5' & C6').
  destruct (merge_stats_min a b) as [Hmd Hmy], (merge_stats_min b a) as [Hmd' Hmy'].
  destruct (merge_stats_max a b Hb) as [Hxd Hxy], (merge_stats_max b a Ha) as [Hxd' Hxy'].
  unfold stats_equiv.
  rewrite Ht, Hr, Ht', Hr', Hs, Ho, Hl, Hs', Ho', Hl', C1, C2, C3, C4, C5, C6,
    C1', C2', C3', C4', C5', C6', Hmd, Hmy, Hmd', Hmy', Hxd, Hxy, Hxd', Hxy'.
  split_and!; try apply update_comm; try lia; try apply (comm_L (∪)).
  - exact (opt_min_comm _ date_ltb_irrefl date_ltb_trans date_ltb_total _ _).
  - exact (opt_max_comm _ date_ltb_irrefl date_ltb_trans date_ltb_total _ _).
  - exact (opt_min_comm _ Zltb_irrefl Zltb_trans Zltb_total _ _).
  - exact (opt_max_comm _ Zltb_irrefl Zltb_trans Zltb_total _ _).
Qed.

Lemma merge_stats_assoc a b c :
  bounds_paired b → bounds_paired c →
  stats_equiv (merge_stats (merge_stats a b) c) (merge_stats a (merge_stats b c)).
Proof.
  intros Hb Hc.
  pose proof (merge_stats_paired b c Hb Hc) as Hbc.
  unfold stats_equiv.
  destruct (merge_stats_totals (merge_stats a b) c) as [-> ->].
  destruct (merge_stats_totals a (merge_stats b c)) as [-> ->].
  destruct (merge_stats_totals a b) as [-> ->], (merge_stats_totals b c) as [-> ->].
  destruct (merge_stats_sets (merge_stats a b) c) as (-> & -> & ->).
  destruct (merge_stats_sets a (merge_stats b c)) as (-> & -> & ->).
  destruct (merge_stats_sets a b) as (-> & -> & ->), (merge_stats_sets b c) as (-> & -> & ->).
  destruct (merge_stats_counters (merge_stats a b) c) as (-> & -> & -> & -> & -> & ->).
  destruct (merge_stats_counters a (merge_stats b c)) as (-> & -> & -> & -> & -> & ->).
  destruct (merge_stats_counters a b) as (-> & -> & -> & -> & -> & ->).
  destruct (merge_stats_counters b c) as (-> & -> & -> & -> & -> & ->).
  destruct (merge_stats_min (merge_stats a b) c) as [-> ->].
  destruct (merge_stats_min a (merge_stats b c)) as [-> ->].
  destruct (merge_stats_min a b) as [-> ->], (merge_stats_min b c) as [-> ->].
  destruct (merge_stats_max (merge_stats a b) c Hc) as [-> ->].
  destruct (merge_stats_max a (merge_stats b c) Hbc) as [-> ->].
  destruct (merge_stats_max a b Hb) as [-> ->], (merge_stats_max b c Hc) as [-> ->].
  split_and!; try apply update_assoc; try lia; try (symmetry; apply (assoc_L (∪))).
  - exact (opt_min_assoc _ date_ltb_trans date_ltb_total _ _ _).
  - exact (opt_max_assoc _ date_ltb_trans date_ltb_total _ _ _).
  - exact (opt_min_assoc _ Zltb_trans Zltb_total _ _ _).
  - exact (opt_max_assoc _ Zltb_trans Zltb_total _ _ _).
Qed.

(** C1, as stated, fails: on a value whose maximal year is present while its
    minimal year is absent, the two orders of merging disagree. *)
Lemma merge_stats_not_comm_in_general :
  ¬ stats_equiv (merge_stats init_stats lone_max_stats)
                (merge_stats lone_max_stats init_stats).
Proof.
  unfold stats_equiv. intros H.
  assert (max_year (merge_stats init_stats lone_max_stats) =
          max_year (merge_stats lone_max_stats init_stats)) as Hmax by apply H.
  vm_compute in Hmax. discriminate Hmax.
Qed.

(** Equality of statistics does not see the insertion order of the counter
    keys, and the order of merging does change it: ties in a ranking of the
    merged value follow the side that was the accumulator. *)
Example merge_order_changes_ties :
  most_common 1 (update (incr "x" empty_counter) (incr "y" empty_counter)) = [("x", 1)] ∧
  most_common 1 (update (incr "y" empty_counter) (incr "x" empty_counter)) = [("y", 1)].
Proof. split; reflexivity. Qed.

(** C1 (amended). For all Stats values in which a maximum is never present
    without its minimum, merging commutes and associates: the two counts,
    the three set unions, the six frequency maps and the four optional
    extrema agree, also when a side has no temporal data at all. *)
Theorem merge_stats_comm_assoc (a b c : Stats) :
  bounds_paired a → bounds_paired b → bounds_paired c →
  stats_equiv (merge_stats a b) (merge_stats b a) ∧
  stats_equiv (merge_stats (merge_stats a b) c) (merge_stats a (merge_stats b c)).
Proof.
  intros Ha Hb Hc. split.
  - by apply merge_stats_comm.
  - by apply merge_stats_assoc.
Qed.

Lemma plain_stats_paired : bounds_paired plain_stats.
Proof. split; intros H; exact H. Defined.

Lemma ranged_stats_paired : bounds_paired ranged_stats.
Proof. split; intros _; discriminate. Defined.

Lemma merge_stats_comm_assoc_witness :
  stats_equiv (merge_stats plain_stats ranged_stats) (merge_stats ranged_stats plain_stats) ∧
  stats_equiv (merge_stats (merge_stats plain_stats ranged_stats) ranged_stats)
              (merge_stats plain_stats (merge_stats ranged_stats ranged_stats)).
Proof.
  apply (merge_stats_comm_assoc plain_stats ranged_stats ranged_stats).
  - exact plain_stats_paired.
  - exact ranged_stats_paired.
  - exact ranged_stats_paired.
Defined.




(** ** Parsing never escapes its handlers *)

Lemma chars_str l : PyStr.chars (PyStr.str l) = l.
Proof. apply list_ascii_of_string_of_list_ascii. Qed.

Lemma str_chars s : PyStr.str (PyStr.chars s) = s.
Proof. apply string_of_list_ascii_of_string. Qed.

Lemma int_digits_all_digits l acc b :
  all_digits l →
  PyStr.int_digits acc b l =
  if b || negb (bool_decide (l = []))
  then Some (fold_left (λ acc c, 10 * acc + PyStr.digit_val c) l acc) else None.
Proof.
  intros Hl. revert acc b. induction Hl as [|c l Hc Hl IH]; intros acc b; simpl.
  - by destruct b.
  - rewrite Hc, IH. simpl. by rewrite orb_true_r.
Qed.

Lemma digit_not_space c : PyStr.isdigit c = true → PyStr.isspace c = false.
Proof.
  unfold PyStr.isdigit, PyStr.isspace. intros H.
  destruct (9 <=? nat_of_ascii c)%nat eqn:?, (nat_of_ascii c <=? 13)%nat eqn:?,
    (28 <=? nat_of_ascii c)%nat eqn:?, (nat_of_ascii c <=? 32)%nat eqn:?; simpl; try done;
    apply andb_true_iff in H as [H1 H2];
    apply Nat.leb_le in H1, H2; repeat match goal with
    | H : (_ <=? _)%nat = true |- _ => apply Nat.leb_le in H
    end; lia.
Qed.

Lemma lstrip_by_head p c l : p c = false → PyStr.lstrip_by p (c :: l) = c :: l.
Proof. intros H. simpl. by rewrite H. Qed.

Lemma strip_by_all_digits l : all_digits l → PyStr.strip_by PyStr.isspace l = l.
Proof.
  intros Hl. unfold PyStr.strip_by.
  assert (∀ l', all_digits l' → PyStr.lstrip_by PyStr.isspace l' = l') as Hfix.
  { intros l' Hl'. destruct Hl' as [|c l' Hc _]; [done |].
    by apply lstrip_by_head, digit_not_space. }
  rewrite (Hfix l Hl), Hfix.
  - apply rev_involutive.
  - by apply List.Forall_rev.
Qed.

Lemma digit_not_sign c :
  PyStr.isdigit c = true → c ≠ "+"%char ∧ c ≠ "-"%char.
Proof. intros H. split; intros ->; vm_compute in H; discriminate. Qed.

(** [int] on a non-empty run of digits succeeds with the number it denotes. *)
Lemma int_all_digits l :
  all_digits l → l ≠ [] → PyStr.int (PyStr.str l) = Ok (decimal_value l).
Proof.
  intros Hl Hne. unfold PyStr.int. rewrite chars_str, strip_by_all_digits by done.
  destruct l as [|c l]; [done |].
  assert (PyStr.isdigit c = true) as Hc by by inversion Hl.
  destruct (digit_not_sign c Hc) as [Hplus Hminus].
  assert (PyStr.int_digits 0 false (c :: l) = Some (decimal_value (c :: l))) as Hd.
  { by rewrite int_digits_all_digits. }
  destruct c as [[] [] [] [] [] [] [] []]; try done; by rewrite Hd.
Qed.

Lemma int_raises_ValueError s e : PyStr.int s = Raise e → e = ValueError.
Proof. unfold PyStr.int. repeat case_match; congruence. Qed.

Lemma make_date_raises_ValueError y m d e : make_date y m d = Raise e → e = ValueError.
Proof. unfold make_date. case_match; congruence. Qed.

Lemma strptime_raises_ValueError s e :
  Strptime.strptime_ymd s = Raise e → e = ValueError.
Proof.
  unfold Strptime.strptime_ymd.
  repeat case_match; try congruence; apply make_date_raises_ValueError.
Qed.

Lemma digits_of_all_digits s : all_digits (PyStr.chars (PyStr.digits_of s)).
Proof.
  unfold PyStr.digits_of, all_digits. rewrite chars_str.
  apply Forall_forall. intros c Hc. by apply list_elem_of_filter in Hc as [Hc _].
Qed.

(** ** The extractor leaves the triple statistics alone and always returns *)

Lemma same_triple_part_refl s : same_triple_part s s.
Proof. by repeat split. Qed.

Lemma note_year_frame y s :
  same_triple_part s (note_year y s) ∧
  temporal_marker_counter (note_year y s) = temporal_marker_counter s ∧
  temporal_records (note_year y s) = temporal_records s ∧
  min_date (note_year y s) = min_date s ∧
  max_date (note_year y s) = max_date s ∧
  year_counter (note_year y s) = incr y (year_counter s).
Proof.
  unfold note_year, same_triple_part. destruct s; simpl.
  repeat (case_match; simpl in * ); by repeat split.
Qed.

(** The fact-extraction year: the first four of all the digit characters of
    the date token. *)
Lemma yago_year_parses (date_token : string) :
  let digits := PyStr.digits_of date_token in
  4 ≤ PyStr.len digits →
  PyStr.int (PyStr.prefix 4 digits) =
  Ok (decimal_value (take 4 (filter (λ c, PyStr.isdigit c = true) (PyStr.chars date_token)))).
Proof.
  intros digits Hlen. unfold PyStr.prefix.
  pose proof (digits_of_all_digits date_token) as Hall. fold digits in Hall.
  assert (PyStr.chars digits = filter (λ c, PyStr.isdigit c = true) (PyStr.chars date_token))
    as Hd by apply chars_str.
  rewrite <- Hd. apply int_all_digits.
  - by apply Forall_take.
  - unfold PyStr.len in Hlen. destruct (PyStr.chars digits); simpl in *; [lia | done].
Qed.

Lemma parse_temporal_tokens_total tokens dataset_type stats :
  ∃ stats', parse_temporal_tokens tokens dataset_type stats = Ok stats' ∧
            same_triple_part stats stats'.
Proof.
  unfold parse_temporal_tokens.
  destruct (decide (dataset_type = "icews")) as [_|_];
    [|destruct (decide (dataset_type = "wikidata")) as [_|_];
      [|destruct (decide (dataset_type = "yago")) as [_|_]]].
  - destruct (4 <=? length tokens)%nat; [|eauto using same_triple_part_refl].
    destruct (Strptime.strptime_ymd (tok tokens 3)) as [d|e] eqn:Hp.
    + eexists. split; [done |]. unfold same_triple_part. destruct stats; simpl.
      repeat (case_match; simpl in * ); by repeat split.
    + apply strptime_raises_ValueError in Hp as ->. eauto using same_triple_part_refl.
  - destruct (5 <=? length tokens)%nat; [|eauto using same_triple_part_refl].
    destruct (decide (PyStr.strip (tok tokens 4) = "")) as [_|_].
    { eexists. split; [done |]. unfold same_triple_part. by destruct stats. }
    destruct (PyStr.int (PyStr.strip (tok tokens 4))) as [y|e] eqn:Hp.
    + eexists. split; [done |].
      destruct (note_year_frame y
        (set_temporal_records (temporal_records
           (set_temporal_marker_counter (incr (tok tokens 3) (temporal_marker_counter stats))
              stats) + 1)
           (set_temporal_marker_counter (incr (tok tokens 3) (temporal_marker_counter stats))
              stats))) as [Hf _].
      unfold same_triple_part in *. by destruct stats.
    + apply int_raises_ValueError in Hp as ->.
      eexists. split; [done |]. unfold same_triple_part. by destruct stats.
  - destruct (5 <=? length tokens)%nat; [|eauto using same_triple_part_refl].
    destruct (Z.leb_spec 4 (PyStr.len (PyStr.digits_of
      (PyStr.strip_chars quote_chars (tok tokens 4))))) as [Hlen|_].
    + rewrite (yago_year_parses _ Hlen). eexists. split; [done |].
      match goal with |- same_triple_part _ (note_year ?y ?s) =>
        destruct (note_year_frame y s) as [Hf _] end.
      unfold same_triple_part in *. by destruct stats.
    + eexists. split; [done |]. unfold same_triple_part. by destruct stats.
  - eauto using same_triple_part_refl.
Qed.

(** ** One line of a file *)

Lemma process_line_unfold dataset_type stats raw_line :
  process_line dataset_type stats raw_line =
  let tokens := PyStr.split PyStr.tab (PyStr.strip raw_line) in
  if (length tokens <? 3)%nat then Ok stats
  else parse_temporal_tokens tokens dataset_type
         (count_triple (tok tokens 0) (tok tokens 1) (tok tokens 2) stats).
Proof.
  unfold process_line. destruct (decide (PyStr.strip raw_line = "")) as [->|_]; [done |].
  simpl. by destruct (length _ <? 3)%nat.
Qed.

(** The loop goes on after a line that returned. *)
Lemma process_lines_step dataset_type stats stats' raw_line rest :
  process_line dataset_type stats raw_line = Ok stats' →
  process_lines dataset_type stats (raw_line :: rest) =
  process_lines dataset_type stats' rest.
Proof. intros H. simpl. by rewrite H. Qed.

Lemma process_line_total dataset_type stats raw_line :
  ∃ stats', process_line dataset_type stats raw_line = Ok stats'.
Proof.
  rewrite process_line_unfold. simpl. destruct (length _ <? 3)%nat; [by eexists |].
  destruct (parse_temporal_tokens_total
    (PyStr.split PyStr.tab (PyStr.strip raw_line)) dataset_type
    (count_triple (tok (PyStr.split PyStr.tab (PyStr.strip raw_line)) 0)
       (tok (PyStr.split PyStr.tab (PyStr.strip raw_line)) 1)
       (tok (PyStr.split PyStr.tab (PyStr.strip raw_line)) 2) stats)) as (s' & -> & _).
  by eexists.
Qed.

Lemma process_lines_total dataset_type lines stats :
  ∃ stats', process_lines dataset_type stats lines = Ok stats'.
Proof.
  revert stats. induction lines as [|raw rest IH]; intros stats; [by eexists |].
  destruct (process_line_total dataset_type stats raw) as [s' Hs'].
  rewrite (process_lines_step _ _ _ _ _ Hs'). apply IH.
Qed.

(** An invariant of the per-line step is an invariant of the loop. *)
Lemma process_lines_invariant (P : Stats → Prop) dataset_type :
  (∀ stats stats' raw_line,
     P stats → process_line dataset_type stats raw_line = Ok stats' → P stats') →
  ∀ lines stats stats',
    P stats → process_lines dataset_type stats lines = Ok stats' → P stats'.
Proof.
  intros Hstep lines. induction lines as [|raw rest IH]; intros stats stats' HP Hrun.
  - simpl in Hrun. by injection Hrun as <-.
  - destruct (process_line_total dataset_type stats raw) as [s1 Hs1].
    rewrite (process_lines_step _ _ _ _ _ Hs1) in Hrun. eauto.
Qed.

(** The three counters that carry entities, after one line. *)
Lemma process_line_counts_triple_aux dataset_type stats raw_line :
  ∃ stats', process_line dataset_type stats raw_line = Ok stats' ∧
    (stats' = stats ∨
     ∃ subj obj,
       subject_counter stats' = incr subj (subject_counter stats) ∧
       object_counter stats' = incr obj (object_counter stats) ∧
       entity_counter stats' = incr obj (incr subj (entity_counter stats))).
Proof.
  rewrite process_line_unfold. simpl. destruct (length _ <? 3)%nat; [by eexists; eauto |].
  match goal with |- context [parse_temporal_tokens ?t _ (count_triple ?a ?r ?o _)] =>
    destruct (parse_temporal_tokens_total t dataset_type (count_triple a r o stats))
      as (s' & -> & _ & _ & _ & _ & Hsc & Hoc & Hec & _);
    exists s'; split; [done |]; right; exists a, o end.
  by rewrite Hsc, Hoc, Hec.
Qed.


(** ** The event-calendar convention *)

Lemma parse_icews_bad_date tokens stats :
  Strptime.strptime_ymd (tok tokens 3) = Raise ValueError →
  parse_temporal_tokens tokens "icews" stats = Ok stats.
Proof.
  intros Hbad. unfold parse_temporal_tokens. rewrite decide_True by done.
  rewrite Hbad. by destruct (4 <=? length tokens)%nat.
Qed.

(** C6. An event-calendar line with four or more columns whose fourth
    column is no calendar date in the pattern YYYY-MM-DD still counts as a
    triple, with its subject, relation and object counted; the year
    counter and the date range stay as they were, nothing is raised, and
    the loop goes on with the next line. *)
Theorem icews_bad_date_keeps_triple (stats : Stats) (raw_line : string) (rest : list string) :
  let tokens := PyStr.split PyStr.tab (PyStr.strip raw_line) in
  (4 ≤ length tokens)%nat →
  Strptime.strptime_ymd (tok tokens 3) = Raise ValueError →
  ∃ stats',
    process_line "icews" stats raw_line = Ok stats' ∧
    stats' = count_triple (tok tokens 0) (tok tokens 1) (tok tokens 2) stats ∧
    triples stats' = triples stats + 1 ∧
    year_counter stats' = year_counter stats ∧
    min_date stats' = min_date stats ∧
    max_date stats' = max_date stats ∧
    process_lines "icews" stats (raw_line :: rest) = process_lines "icews" stats' rest.
Proof.
  intros tokens Hlen Hbad.
  assert (process_line "icews" stats raw_line =
          Ok (count_triple (tok tokens 0) (tok tokens 1) (tok tokens 2) stats)) as Hline.
  { rewrite process_line_unfold. fold tokens. simpl.
    destruct (Nat.ltb_spec (length tokens) 3) as [Hlt|_]; [lia |].
    by apply parse_icews_bad_date. }
  eexists. split; [exact Hline |]. split_and!; try done.
  by apply process_lines_step.
Qed.

Lemma icews_bad_date_keeps_triple_witness :
  ∃ stats',
    process_line "icews" init_stats (tsv ["A"; "rel"; "B"; "2010-13-01"]) = Ok stats' ∧
    stats' = count_triple "A" "rel" "B" init_stats ∧
    triples stats' = 1 ∧
    year_counter stats' = year_counter init_stats ∧
    min_date stats' = None ∧
    max_date stats' = None ∧
    process_lines "icews" init_stats [tsv ["A"; "rel"; "B"; "2010-13-01"]; "x"] =
    process_lines "icews" stats' ["x"].
Proof.
  apply (icews_bad_date_keeps_triple init_stats (tsv ["A"; "rel"; "B"; "2010-13-01"]) ["x"]).
  - vm_compute. lia.
  - reflexivity.
Defined.

Lemma parse_icews_frame tokens stats :
  ∃ stats', parse_temporal_tokens tokens "icews" stats = Ok stats' ∧
            temporal_records stats' = temporal_records stats ∧
            temporal_marker_counter stats' = temporal_marker_counter stats.
Proof.
  unfold parse_temporal_tokens. rewrite decide_True by done.
  destruct (4 <=? length tokens)%nat; [|by eexists].
  destruct (Strptime.strptime_ymd (tok tokens 3)) as [d|e] eqn:Hp.
  - eexists. split; [done |]. destruct stats; simpl.
    repeat (case_match; simpl in * ); done.
  - apply strptime_raises_ValueError in Hp as ->. by eexists.
Qed.

Lemma process_line_icews_frame stats raw_line :
  ∃ stats', process_line "icews" stats raw_line = Ok stats' ∧
            temporal_records stats' = temporal_records stats ∧
            temporal_marker_counter stats' = temporal_marker_counter stats.
Proof.
  rewrite process_line_unfold. simpl. destruct (length _ <? 3)%nat; [by eexists |].
  match goal with |- context [parse_temporal_tokens ?t _ ?s] =>
    destruct (parse_icews_frame t s) as (s' & -> & Hr & Hm) end.
  by exists s'.
Qed.

(** C10. The event-calendar branch never touches the temporal-record count
    nor the marker counter, whether the date parses or not; hence the
    statistics of a whole event-calendar file have no temporal record and
    no marker. *)
Theorem icews_has_no_temporal_records :
  (∀ tokens stats, ∃ stats',
     parse_temporal_tokens tokens "icews" stats = Ok stats' ∧
     temporal_records stats' = temporal_records stats ∧
     temporal_marker_counter stats' = temporal_marker_counter stats) ∧
  (∀ lines, ∃ stats,
     process_lines "icews" init_stats lines = Ok stats ∧
     temporal_records stats = 0 ∧
     items (temporal_marker_counter stats) = []).
Proof.
  split; [apply parse_icews_frame |].
  intros lines. destruct (process_lines_total "icews" lines init_stats) as [s Hs].
  exists s. split; [done |].
  apply (process_lines_invariant
    (λ s, temporal_records s = 0 ∧ items (temporal_marker_counter s) = []) "icews")
    with (lines := lines) (stats := init_stats); [|done|done].
  intros st st' raw [Hr Hm] Hline.
  destruct (process_line_icews_frame st raw) as (st2 & Hline2 & Hr2 & Hm2).
  rewrite Hline in Hline2. injection Hline2 as <-. by rewrite Hr2, Hm2.
Qed.

Example icews_good_date_line :
  ∃ stats', process_line "icews" init_stats (tsv ["A"; "rel"; "B"; "2010-05-01"]) = Ok stats' ∧
    triples stats' = 1 ∧ items (year_counter stats') = [(2010, 1)] ∧
    min_date stats' = Some (mkDate 2010 5 1) ∧ max_date stats' = Some (mkDate 2010 5 1) ∧
    temporal_records stats' = 0 ∧ items (temporal_marker_counter stats') = [].
Proof. eexists. split; [reflexivity |]. by vm_compute. Qed.

(** ** The entity counter is the sum of the subject and object counters *)

Lemma entity_sum_init : entity_sum init_stats.
Proof. intros e. done. Qed.

Lemma entity_sum_line dataset_type stats stats' raw_line :
  entity_sum stats → process_line dataset_type stats raw_line = Ok stats' →
  entity_sum stats'.
Proof.
  intros Hinv Hline.
  destruct (process_line_counts_triple_aux dataset_type stats raw_line) as (s2 & Hs2 & Hcase).
  rewrite Hline in Hs2. injection Hs2 as <-.
  destruct Hcase as [->|(subj & obj & Hs & Ho & He)]; [done |].
  intros e. rewrite Hs, Ho, He, !get_incr, (Hinv e). lia.
Qed.

Lemma entity_sum_merge a b : entity_sum a → entity_sum b → entity_sum (merge_stats a b).
Proof.
  intros Ha Hb e.
  destruct (merge_stats_counters a b) as (-> & -> & -> & _).
  rewrite !get_update, (Ha e), (Hb e). lia.
Qed.

(** C7. The statistics of any file satisfy
    [entity_counter[e] = subject_counter[e] + object_counter[e]] for every
    [e] (a missing key counting 0), and merging two statistics that satisfy
    it gives statistics that satisfy it. *)
Theorem entity_counter_is_sum :
  (∀ dataset_type lines, ∃ stats,
     process_lines dataset_type init_stats lines = Ok stats ∧ entity_sum stats) ∧
  (∀ a b, entity_sum a → entity_sum b → entity_sum (merge_stats a b)).
Proof.
  split.
  - intros dataset_type lines.
    destruct (process_lines_total dataset_type lines init_stats) as [s Hs].
    exists s. split; [done |].
    apply (process_lines_invariant entity_sum dataset_type)
      with (lines := lines) (stats := init_stats); [|apply entity_sum_init|done].
    intros st st' raw. apply entity_sum_line.
  - apply entity_sum_merge.
Qed.

Lemma entity_sum_count_triple subj rel obj : entity_sum (count_triple subj rel obj init_stats).
Proof.
  intros e. cbn [count_triple entity_counter subject_counter object_counter init_stats].
  rewrite !get_incr, !get_empty. lia.
Defined.

Lemma entity_counter_is_sum_witness :
  entity_sum (merge_stats (count_triple "A" "r" "B" init_stats)
                          (count_triple "B" "r" "C" init_stats)).
Proof.
  apply (proj2 entity_counter_is_sum).
  - apply entity_sum_count_triple.
  - apply entity_sum_count_triple.
Defined.

(** ** The fact-extraction convention *)

Lemma note_year_bounds y s :
  min_year (note_year y s) = opt_min Z.ltb (min_year s) (Some y) ∧
  max_year (note_year y s) = opt_max Z.ltb (max_year s) (Some y).
Proof.
  unfold note_year. destruct s as [? ? ? ? ? ? ? ? ? ? ? ? ? mn mx]; simpl.
  destruct mn as [a|], mx as [b|]; simpl; unfold lesser, greater;
    repeat (case_match; simpl in * ); done.
Qed.




(** ** The linked-data convention *)

(** With five or more columns the marker and the temporal record are
    counted whatever the year token is; the year is counted exactly when
    the trimmed token is an integer. *)
Lemma wikidata_marker_always_counted (tokens : list string) (stats : Stats) :
  (5 ≤ length tokens)%nat →
  ∃ stats',
    parse_temporal_tokens tokens "wikidata" stats = Ok stats' ∧
    temporal_marker_counter stats' = incr (tok tokens 3) (temporal_marker_counter stats) ∧
    temporal_records stats' = temporal_records stats + 1 ∧
    year_counter stats' =
      match PyStr.int (PyStr.strip (tok tokens 4)) with
      | Ok y => incr y (year_counter stats)
      | Raise _ => year_counter stats
      end.
Proof.
  intros Hlen. unfold parse_temporal_tokens.
  rewrite decide_False by done. rewrite decide_True by done.
  destruct (Nat.leb_spec 5 (length tokens)) as [_|?]; [|lia].
  destruct (decide (PyStr.strip (tok tokens 4) = "")) as [->|_].
  { eexists. split; [done |]. by destruct stats. }
  destruct (PyStr.int (PyStr.strip (tok tokens 4))) as [y|e] eqn:Hp.
  - eexists. split; [done |].
    match goal with |- context [note_year ?y ?s] =>
      destruct (note_year_frame y s) as (_ & Hm & Hr & _ & _ & Hy) end.
    rewrite Hm, Hr, Hy. by destruct stats.
  - apply int_raises_ValueError in Hp as ->.
    eexists. split; [done |]. by destruct stats.
Qed.

(** C4, evaluated at a raw line that ends in a tab after the marker:
    trimming the line removes the tab, four columns are left, and neither
    the marker nor the temporal record is counted, while the triple is. *)
Theorem wikidata_trailing_tab_drops_marker :
  let raw_line := tsv ["A"; "rel"; "B"; "since"; ""] +:+ String PyStr.newline "" in
  PyStr.split PyStr.tab (PyStr.strip raw_line) = ["A"; "rel"; "B"; "since"] ∧
  ∃ stats',
    process_line "wikidata" init_stats raw_line = Ok stats' ∧
    triples stats' = 1 ∧
    temporal_records stats' = 0 ∧
    items (temporal_marker_counter stats') = [].
Proof.
  split; [reflexivity |]. eexists. split; [reflexivity |]. by vm_compute.
Qed.

Example wikidata_empty_year_before_more_columns :
  ∃ stats',
    process_line "wikidata" init_stats (tsv ["A"; "rel"; "B"; "since"; ""; "x"]) = Ok stats' ∧
    temporal_records stats' = 1 ∧
    items (temporal_marker_counter stats') = [("since", 1)] ∧
    items (year_counter stats') = [].
Proof. eexists. split; [reflexivity |]. by vm_compute. Qed.

(** ** Rankings *)

Example abc_counter_items : items abc_counter = [("a", 5); ("b", 5); ("c", 1)].
Proof. reflexivity. Qed.

Example most_common_tie :
  most_common 2 abc_counter = [("a", 5); ("b", 5)] ∧
  most_common 2 (incr "b" (incr "c" (incr "a" empty_counter))) = [("a", 1); ("c", 1)].
Proof. split; reflexivity. Qed.

Lemma most_common_ranked {K : Type} `{EqDecision K} (c : Counter K) (top_n : Z) :
  ranked c top_n (most_common top_n c).
Proof. split; [apply nlargest_ranking | apply nlargest_length]. Qed.

(** C8, as stated, fails: for a negative [top_n] the ranking is empty, and
    its length is not the minimum of [top_n] and the number of keys. *)
Lemma summarize_negative_top_n :
  let stats := set_entity_counter abc_counter init_stats in
  Z.of_nat (length (top_entities (summarize stats (-1)))) ≠
  Z.min (-1) (size_counter (entity_counter stats)).
Proof. vm_compute. discriminate. Qed.

(** C8 (amended). For every Stats value and every [top_n], each of the six
    rankings of the summary is the first [top_n] entries of its counter's
    entries rearranged by descending frequency, entries of equal frequency
    staying in insertion order; it has min(top_n, number of keys) entries
    when [top_n] is not negative and none when it is. For {a: 5, b: 5,
    c: 1} and [top_n] = 2 this is a then b, both with frequency 5. *)
Theorem summarize_rankings (stats : Stats) (top_n : Z) :
  ranked (entity_counter stats) top_n (top_entities (summarize stats top_n)) ∧
  ranked (subject_counter stats) top_n (top_subjects (summarize stats top_n)) ∧
  ranked (object_counter stats) top_n (top_objects (summarize stats top_n)) ∧
  ranked (relation_counter stats) top_n (top_relations (summarize stats top_n)) ∧
  ranked (year_counter stats) top_n (top_years (summarize stats top_n)) ∧
  ranked (temporal_marker_counter stats) top_n (temporal_markers (summarize stats top_n)) ∧
  top_entities (summarize (set_entity_counter abc_counter init_stats) 2) = [("a", 5); ("b", 5)].
Proof. split_and!; try apply most_common_ranked. reflexivity. Qed.

(** ** Dataset discovery *)

Lemma insert_sorted_elem x y l : y ∈ PyStr.insert_sorted x l → y = x ∨ y ∈ l.
Proof.
  induction l as [|z l IH]; simpl.
  - intros ->%list_elem_of_singleton. by left.
  - destruct (PyStr.le x z).
    + intros [->|H]%elem_of_cons; [by left | by right].
    + intros [->|H]%elem_of_cons; [right; by left |].
      destruct (IH H) as [->|?]; [by left | right; by right].
Qed.

Lemma sorted_elem y l : y ∈ PyStr.sorted l → y ∈ l.
Proof.
  induction l as [|x l IH]; simpl; [done |].
  intros [->|H]%insert_sorted_elem; [by left | right; auto].
Qed.

Lemma filter_none {A : Type} (P : A → Prop) `{∀ x, Decision (P x)} (l : list A) :
  (∀ x, x ∈ l → ¬ P x) → filter P l = [].
Proof.
  induction l as [|x l IH]; intros Hno; [done |].
  rewrite filter_cons, decide_False by (apply Hno; by left).
  apply IH. intros y Hy. apply Hno. by right.
Qed.

Lemma discover_datasets_none entries include opened :
  (∀ name, ¬ selected entries include name) →
  discover_datasets (Some (Dir entries)) include opened = (Ok [], opened).
Proof.
  intros Hno. unfold discover_datasets, io_bind, listdir, io_ret.
  destruct include as [[|item items]|].
  - rewrite filter_none; [done |]. intros x Hx Hd. by apply (Hno x).
  - rewrite filter_none; [done |].
    intros x Hx Hin. apply sorted_elem, list_elem_of_filter in Hx as [Hd Hx].
    by apply (Hno x).
  - rewrite filter_none; [done |]. intros x Hx Hd. by apply (Hno x).
Qed.

(** C9, as stated, fails for a base directory that does not exist: the run
    ends with the error of the directory listing, not with the condition
    that no dataset was found. *)
Lemma analyze_missing_base_is_not_no_datasets :
  (analyze "TemporalKGs" None 5 None false []).1 ≠
  Raise (SystemExit (no_datasets_message "TemporalKGs")).
Proof. vm_compute. discriminate. Qed.

(** What the run does when the base directory does not exist: the listing
    raises, nothing has been opened. *)
Lemma analyze_missing_base base_dir top_n include per_file opened :
  analyze base_dir None top_n include per_file opened = (Raise FileNotFoundError, opened).
Proof. done. Qed.

(** C9 (amended). If the base directory exists and holds no entry that
    discovery keeps (it is empty, it holds no subdirectory, or the
    case-insensitive filter matches no subdirectory), the run ends with the
    fatal condition that no dataset folder was found; no file has been
    opened before, and there is no result. *)
Theorem analyze_without_datasets (base_dir : string) (entries : list (string * node))
    (top_n : Z) (include : option (list string)) (per_file : bool) (opened : list string) :
  (∀ name, ¬ selected entries include name) →
  analyze base_dir (Some (Dir entries)) top_n include per_file opened =
  (Raise (SystemExit (no_datasets_message base_dir)), opened).
Proof.
  intros Hno. unfold analyze, io_bind.
  by rewrite (discover_datasets_none entries include opened Hno).
Qed.

Lemma analyze_without_datasets_witness :
  analyze "TemporalKGs" (Some (Dir [("icews14", Dir []); ("notes.txt", File ["x"])])) 5
    (Some ["Wikidata"]) true [] =
  (Raise (SystemExit "No dataset folders found under TemporalKGs."), []).
Proof.
  apply (analyze_without_datasets "TemporalKGs"
           [("icews14", Dir []); ("notes.txt", File ["x"])] 5 (Some ["Wikidata"]) true []).
  intros name (Hin & Hdir & Hsel).
  apply elem_of_cons in Hin as [->|Hin].
  { cbn [map] in Hsel. apply list_elem_of_singleton in Hsel.
    vm_compute in Hsel. discriminate. }
  apply list_elem_of_singleton in Hin as ->. vm_compute in Hdir. discriminate.
Defined.

Example analyze_empty_base :
  analyze "TemporalKGs" (Some (Dir [])) 5 None false [] =
  (Raise (SystemExit "No dataset folders found under TemporalKGs."), []).
Proof. reflexivity. Qed.

(** ** The ranking is determined

    Descending order together with stability leaves one rearrangement only,
    so [ranking] names exactly what [most_common] returns. *)

Section ranking_unique.
Context {K : Type} `{EqDecision K}.

Implicit Types (l : list (K * Z)).

Lemma sorted_stable_unique l1 l2 :
  StronglySorted count_ge l1 → StronglySorted count_ge l2 →
  (∀ v : Z, filter (λ x, x.2 = v) l1 = filter (λ x, x.2 = v) l2) →
  l1 = l2.
Proof.
  intros Hs1. revert l2. induction Hs1 as [|x l1 Hs1 IH Hx]; intros l2 Hs2 Hf.
  - destruct l2 as [|y l2]; [done |].
    specialize (Hf (y.2)). rewrite filter_cons, decide_True in Hf by done. done.
  - destruct Hs2 as [|y l2 Hs2 Hy].
    { specialize (Hf (x.2)). rewrite filter_cons, decide_True in Hf by done. done. }
    assert (x.2 ≤ y.2) as Hxy.
    { assert (x ∈ y :: l2) as Hin.
      { eapply (list_elem_of_filter (λ e, e.2 = x.2)).
        rewrite <- (Hf (x.2)), filter_cons, decide_True by done. by left. }
      apply elem_of_cons in Hin as [->|Hin]; [lia |].
      rewrite Forall_forall in Hy. by apply Hy. }
    assert (y.2 ≤ x.2) as Hyx.
    { assert (y ∈ x :: l1) as Hin.
      { eapply (list_elem_of_filter (λ e, e.2 = y.2)).
        rewrite (Hf (y.2)), filter_cons, decide_True by done. by left. }
      apply elem_of_cons in Hin as [->|Hin]; [lia |].
      rewrite Forall_forall in Hx. by apply Hx. }
    assert (x = y ∧ ∀ v : Z, filter (λ e, e.2 = v) l1 = filter (λ e, e.2 = v) l2) as [-> Hf'].
    { split.
      - specialize (Hf (x.2)).
        rewrite !filter_cons, decide_True, decide_True in Hf by (done || lia).
        by injection Hf.
      - intros v. specialize (Hf v). rewrite !filter_cons in Hf.
        destruct (decide (x.2 = v)), (decide (y.2 = v)); try lia; [by injection Hf | done]. }
    f_equal. by apply IH.
Qed.

Lemma ranking_unique l (n : Z) out :
  ranking l (Z.to_nat n) out → out = nlargest n l.
Proof.
  intros (full & _ & Hs & Hf & ->). unfold nlargest. f_equal.
  apply sorted_stable_unique; [done | apply sort_desc_sorted |].
  intros v. by rewrite Hf, sort_desc_stable.
Qed.

End ranking_unique.

(** ** Every value the program builds pairs its bounds *)

Lemma note_year_paired y s : bounds_paired s → bounds_paired (note_year y s).
Proof.
  intros [Hd Hy]. destruct (note_year_bounds y s) as [Hmin Hmax].
  destruct (note_year_frame y s) as (_ & _ & _ & Hmd & Hxd & _).
  unfold bounds_paired, max_needs_min. rewrite Hmin, Hmd, Hxd. split; [done |].
  intros _. by destruct (min_year s).
Qed.

Lemma icews_date_paired d s :
  bounds_paired s →
  bounds_paired
    (let stats := set_year_counter (incr (year d) (year_counter s)) s in
     let stats := if none_or_lt date_ltb d (min_date stats)
                  then set_min_date (Some d) stats else stats in
     if none_or_gt date_ltb d (max_date stats)
     then set_max_date (Some d) stats else stats).
Proof.
  intros [Hd Hy]. unfold bounds_paired, max_needs_min in *.
  destruct s as [? ? ? ? ? ? ? ? ? ? ? mn mx ? ?]; simpl in *.
  destruct mn, mx; simpl in *; repeat (case_match; simpl in * ); split; try done.
  all: by intros _; apply Hd.
Qed.

Lemma parse_temporal_tokens_paired tokens dataset_type s s' :
  bounds_paired s → parse_temporal_tokens tokens dataset_type s = Ok s' →
  bounds_paired s'.
Proof.
  intros Hs. unfold parse_temporal_tokens.
  assert (∀ m r, bounds_paired (set_temporal_records r (set_temporal_marker_counter m s)))
    as Hset by (intros; by destruct s).
  destruct (decide (dataset_type = "icews")) as [_|_];
    [|destruct (decide (dataset_type = "wikidata")) as [_|_];
      [|destruct (decide (dataset_type = "yago")) as [_|_]]].
  - destruct (4 <=? length tokens)%nat; [|by intros [= <-]].
    destruct (Strptime.strptime_ymd (tok tokens 3)) as [d|[]]; try done.
    + intros [= <-]. by apply icews_date_paired.
    + by intros [= <-].
  - destruct (5 <=? length tokens)%nat; [|by intros [= <-]].
    destruct (decide (PyStr.strip (tok tokens 4) = "")) as [_|_]; [intros [= <-]; apply Hset |].
    destruct (PyStr.int (PyStr.strip (tok tokens 4))) as [y|[]]; try done.
    + intros [= <-]. apply note_year_paired, Hset.
    + intros [= <-]. apply Hset.
  - destruct (5 <=? length tokens)%nat; [|by intros [= <-]].
    destruct (4 <=? _); [|intros [= <-]; apply Hset].
    destruct (PyStr.int _) as [y|e]; [|done].
    intros [= <-]. apply note_year_paired, Hset.
  - by intros [= <-].
Qed.

Lemma process_lines_paired dataset_type lines stats :
  process_lines dataset_type init_stats lines = Ok stats → bounds_paired stats.
Proof.
  intros Hrun.
  apply (process_lines_invariant bounds_paired dataset_type)
    with (lines := lines) (stats := init_stats); [|split; intros H; exact H|exact Hrun].
  intros s s' raw Hs. rewrite process_line_unfold. simpl.
  destruct (length _ <? 3)%nat; [by intros [= <-] |].
  apply parse_temporal_tokens_paired. by destruct s.
Qed.

(** ** Folding the files of a dataset in any order *)

Lemma stats_equiv_refl a : stats_equiv a a.
Proof. unfold stats_equiv, counter_equiv. by split_and!. Qed.

Lemma stats_equiv_sym a b : stats_equiv a b → stats_equiv b a.
Proof.
  unfold stats_equiv, counter_equiv.
  intros (? & ? & ? & ? & ? & ? & ? & ? & ? & ? & ? & ? & ? & ? & ?). by split_and!.
Qed.

Lemma stats_equiv_trans a b c : stats_equiv a b → stats_equiv b c → stats_equiv a c.
Proof.
  unfold stats_equiv, counter_equiv.
  intros (? & ? & ? & ? & ? & ? & ? & ? & ? & ? & ? & ? & ? & ? & ?)
         (? & ? & ? & ? & ? & ? & ? & ? & ? & ? & ? & ? & ? & ? & ?).
  split_and!; try congruence; intros k; etrans; eauto.
Qed.

Lemma update_equiv {K : Type} `{EqDecision K} (c1 c1' c2 c2' : Counter K) :
  counter_equiv c1 c1' → counter_equiv c2 c2' →
  counter_equiv (update c1 c2) (update c1' c2').
Proof. intros H1 H2 k. by rewrite !lookup_update, (H1 k), (H2 k). Qed.

Lemma merge_stats_equiv a a' b b' :
  stats_equiv a a' → stats_equiv b b' → bounds_paired b → bounds_paired b' →
  stats_equiv (merge_stats a b) (merge_stats a' b').
Proof.
  intros (? & ? & ? & ? & ? & ? & ? & ? & ? & ? & ? & Hmd & Hxd & Hmy & Hxy)
         (? & ? & ? & ? & ? & ? & ? & ? & ? & ? & ? & Hmd' & Hxd' & Hmy' & Hxy') Hb Hb'.
  unfold stats_equiv.
  destruct (merge_stats_totals a b) as [-> ->], (merge_stats_totals a' b') as [-> ->].
  destruct (merge_stats_sets a b) as (-> & -> & ->).
  destruct (merge_stats_sets a' b') as (-> & -> & ->).
  destruct (merge_stats_counters a b) as (-> & -> & -> & -> & -> & ->).
  destruct (merge_stats_counters a' b') as (-> & -> & -> & -> & -> & ->).
  destruct (merge_stats_min a b) as [-> ->], (merge_stats_min a' b') as [-> ->].
  destruct (merge_stats_max a b Hb) as [-> ->], (merge_stats_max a' b' Hb') as [-> ->].
  split_and!; try (by apply update_equiv); congruence.
Qed.

Lemma fold_merge_equiv l a a' :
  Forall bounds_paired l → stats_equiv a a' →
  stats_equiv (fold_left merge_stats l a) (fold_left merge_stats l a').
Proof.
  intros Hl. revert a a'. induction Hl as [|x l Hx Hl IH]; intros a a' Ha; [done |].
  simpl. apply IH. apply merge_stats_equiv; auto using stats_equiv_refl.
Qed.

Lemma merge_stats_swap a x y :
  bounds_paired x → bounds_paired y →
  stats_equiv (merge_stats (merge_stats a x) y) (merge_stats (merge_stats a y) x).
Proof.
  intros Hx Hy.
  eapply stats_equiv_trans; [by apply merge_stats_assoc |].
  eapply stats_equiv_trans; [|apply stats_equiv_sym; by apply merge_stats_assoc].
  apply merge_stats_equiv; auto using stats_equiv_refl, merge_stats_comm, merge_stats_paired.
Qed.

(** The aggregate does not depend on the order in which the statistics of
    the files are merged. *)
Lemma fold_merge_order_independent l l' a :
  l ≡ₚ l' → Forall bounds_paired l →
  stats_equiv (fold_left merge_stats l a) (fold_left merge_stats l' a).
Proof.
  intros Hperm. revert a. induction Hperm as [|x l l' Hperm IH|x y l|l l' l'' H1 IH1 H2 IH2];
    intros a Hl.
  - apply stats_equiv_refl.
  - simpl. apply IH. by eapply Forall_inv_tail.
  - simpl. apply Forall_cons in Hl as [Hy Hl]. apply Forall_cons in Hl as [Hx Hl].
    apply fold_merge_equiv; [done |]. by apply merge_stats_swap.
  - eapply stats_equiv_trans; [by apply IH1 |]. apply IH2. by rewrite <- H1.
Qed.

(** * Further properties of the engine *)

(** ** The accumulator as a fold of line contributions *)

Ltac unfold_setters :=
  unfold set_triples, set_subjects, set_objects, set_relations, set_subject_counter,
    set_object_counter, set_entity_counter, set_relation_counter, set_year_counter,
    set_temporal_marker_counter, set_temporal_records, set_min_date, set_max_date,
    set_min_year, set_max_year;
  cbn [triples subjects objects relations subject_counter object_counter entity_counter
       relation_counter year_counter temporal_marker_counter temporal_records
       min_date max_date min_year max_year
       none_or_lt none_or_gt none_or_some_gt opt_min opt_max
       date_of year_of marker_of counted_year incr_opt].

(** Two statistics with the same fifteen attributes are the same. *)
Lemma stats_ext (s s' : Stats) :
  triples s = triples s' → subjects s = subjects s' → objects s = objects s' →
  relations s = relations s' → subject_counter s = subject_counter s' →
  object_counter s = object_counter s' → entity_counter s = entity_counter s' →
  relation_counter s = relation_counter s' → year_counter s = year_counter s' →
  temporal_marker_counter s = temporal_marker_counter s' →
  temporal_records s = temporal_records s' → min_date s = min_date s' →
  max_date s = max_date s' → min_year s = min_year s' → max_year s = max_year s' →
  s = s'.
Proof. destruct s, s'; simpl. by intros -> -> -> -> -> -> -> -> -> -> -> -> -> -> ->. Qed.

Lemma opt_min_none {A : Type} (ltb : A → A → bool) (o : option A) : opt_min ltb o None = o.
Proof. by destruct o. Qed.

Lemma opt_max_none {A : Type} (ltb : A → A → bool) (o : option A) : opt_max ltb o None = o.
Proof. by destruct o. Qed.

Lemma count_marker_apply m s :
  set_temporal_records (temporal_records
    (set_temporal_marker_counter (incr m (temporal_marker_counter s)) s) + 1)
    (set_temporal_marker_counter (incr m (temporal_marker_counter s)) s) =
  apply_temporal (Marked m None) s.
Proof.
  apply stats_ext; destruct s; cbn -[incr];
    rewrite ?opt_min_none, ?opt_max_none; reflexivity.
Qed.

Lemma apply_no_temporal s : apply_temporal NoTemporal s = s.
Proof.
  apply stats_ext; destruct s; cbn -[incr];
    rewrite ?opt_min_none, ?opt_max_none; reflexivity || lia.
Qed.

Lemma note_year_apply y m s :
  note_year y (apply_temporal (Marked m None) s) = apply_temporal (Marked m (Some y)) s.
Proof.
  destruct (note_year_frame y (apply_temporal (Marked m None) s))
    as ((Ht & Hs & Ho & Hr & Hsc & Hoc & Hec & Hrc) & Hm & Htr & Hmd & Hxd & Hy).
  destruct (note_year_bounds y (apply_temporal (Marked m None) s)) as [Hmin Hmax].
  apply stats_ext; rewrite ?Ht, ?Hs, ?Ho, ?Hr, ?Hsc, ?Hoc, ?Hec, ?Hrc, ?Hm, ?Htr, ?Hmd,
    ?Hxd, ?Hy, ?Hmin, ?Hmax; destruct s; cbn -[incr];
    rewrite ?opt_min_none, ?opt_max_none; reflexivity.
Qed.

Lemma note_date_apply d s :
  (let stats := set_year_counter (incr (year d) (year_counter s)) s in
   let stats := if none_or_lt date_ltb d (min_date stats)
                then set_min_date (Some d) stats else stats in
   if none_or_gt date_ltb d (max_date stats)
   then set_max_date (Some d) stats else stats) = apply_temporal (Dated d) s.
Proof.
  destruct s as [? ? ? ? ? ? ? ? ? ? ? mn mx a b].
  unfold apply_temporal.
  destruct mn as [x|], mx as [z|], a, b; unfold_setters;
    repeat match goal with
           | |- context [date_ltb ?u ?v] => destruct (date_ltb u v) eqn:?; unfold_setters
           end; unfold lesser, greater;
    repeat match goal with H : date_ltb _ _ = _ |- _ => rewrite H; clear H end;
    f_equal; lia.
Qed.

Lemma parse_temporal_tokens_extract tokens dataset_type stats :
  parse_temporal_tokens tokens dataset_type stats =
  Ok (apply_temporal (extract tokens dataset_type) stats).
Proof.
  unfold parse_temporal_tokens, extract.
  destruct (decide (dataset_type = "icews")) as [_|_];
    [|destruct (decide (dataset_type = "wikidata")) as [_|_];
      [|destruct (decide (dataset_type = "yago")) as [_|_]]];
    try by rewrite apply_no_temporal.
  - destruct (4 <=? length tokens)%nat; [|by rewrite apply_no_temporal].
    destruct (Strptime.strptime_ymd (tok tokens 3)) as [d|e] eqn:Hp.
    + f_equal. apply note_date_apply.
    + apply strptime_raises_ValueError in Hp as ->. by rewrite apply_no_temporal.
  - destruct (5 <=? length tokens)%nat; [|by rewrite apply_no_temporal].
    rewrite count_marker_apply.
    destruct (decide (PyStr.strip (tok tokens 4) = "")) as [->|_]; [done |].
    destruct (PyStr.int (PyStr.strip (tok tokens 4))) as [y|e] eqn:Hp.
    + f_equal. apply note_year_apply.
    + by apply int_raises_ValueError in Hp as ->.
  - destruct (5 <=? length tokens)%nat; [|by rewrite apply_no_temporal].
    rewrite count_marker_apply.
    set (date_token := PyStr.strip_chars quote_chars (tok tokens 4)).
    set (digits := filter (λ c, PyStr.isdigit c = true) (PyStr.chars date_token)).
    assert (PyStr.len (PyStr.digits_of date_token) = Z.of_nat (length digits)) as Hl.
    { unfold PyStr.len, PyStr.digits_of. by rewrite chars_str. }
    destruct (Z.leb_spec 4 (PyStr.len (PyStr.digits_of date_token))) as [Hge|Hlt].
    + rewrite (yago_year_parses date_token Hge). fold digits.
      destruct (decide (4 ≤ length digits)%nat) as [_|?]; [|lia].
      unfold mbind, result_bind. f_equal. apply note_year_apply.
    + by destruct (decide (4 ≤ length digits)%nat) as [?|_]; [lia |].
Qed.

Lemma process_line_step dataset_type stats raw_line :
  process_line dataset_type stats raw_line = Ok (step dataset_type raw_line stats).
Proof.
  rewrite process_line_unfold. unfold step, line_view. cbv zeta.
  destruct (length _ <? 3)%nat; [done |]. apply parse_temporal_tokens_extract.
Qed.

Lemma process_lines_run dataset_type lines stats :
  process_lines dataset_type stats lines = Ok (run dataset_type lines stats).
Proof.
  revert stats. induction lines as [|raw rest IH]; intros stats; [done |].
  rewrite (process_lines_step _ _ _ _ _ (process_line_step dataset_type stats raw)).
  apply IH.
Qed.

Lemma run_app dataset_type l1 l2 stats :
  run dataset_type (l1 ++ l2) stats = run dataset_type l2 (run dataset_type l1 stats).
Proof. apply fold_left_app. Qed.

(** ** Counters: incrementing and updating commute, the empty counter is
    neutral *)

Section counter_algebra.
Context {K : Type} `{EqDecision K}.

Implicit Types (k : K) (l d : list (K * Z)) (c : Counter K).

Lemma set_items_twice k x y l : set_items k y (set_items k x l) = set_items k y l.
Proof.
  induction l as [|[k0 v0] l IH]; simpl.
  - by rewrite decide_True.
  - destruct (decide (k = k0)) as [->|Hne]; simpl.
    + by rewrite decide_True.
    + rewrite decide_False by done. by rewrite IH.
Qed.


Lemma set_items_in_comm k k1 x y l :
  k ≠ k1 → k ∈ l.*1 →
  set_items k x (set_items k1 y l) = set_items k1 y (set_items k x l).
Proof.
  intros Hne. induction l as [|[k0 v0] l IH]; intros Hin.
  - by apply elem_of_nil in Hin.
  - rewrite fmap_cons in Hin. simpl in *.
    repeat (case_decide; simpl); subst; try done.
    f_equal. apply IH. by apply elem_of_cons in Hin as [?|?].
Qed.

Lemma elem_of_set_items_keys k k' x l :
  k' ∈ (set_items k x l).*1 ↔ k' = k ∨ k' ∈ l.*1.
Proof.
  rewrite set_items_keys. destruct (decide (k ∈ l.*1)).
  - split; [by right | by intros [->|?]].
  - rewrite elem_of_app, list_elem_of_singleton. tauto.
Qed.

Lemma incr_update_items_in k l d :
  k ∉ d.*1 → k ∈ l.*1 →
  incr_items k (update_items l d) = update_items (incr_items k l) d.
Proof.
  revert l. induction d as [|[k1 v1] d IH]; intros l Hd Hl; [done |].
  rewrite fmap_cons in Hd. apply not_elem_of_cons in Hd as [Hne Hd]. simpl in *.
  rewrite IH; [|done|apply elem_of_set_items_keys; by right].
  f_equal. unfold incr_items.
  rewrite !get_set_items, !decide_False by done.
  by apply set_items_in_comm.
Qed.

Lemma incr_update_items k l d :
  NoDup (d.*1) → incr_items k (update_items l d) = update_items l (incr_items k d).
Proof.
  revert l. induction d as [|[k0 v0] d IH]; intros l Hnd.
  - simpl. unfold incr_items, get_items. simpl. f_equal. lia.
  - rewrite fmap_cons in Hnd. apply NoDup_cons in Hnd as [Hk0 Hnd]. simpl in *.
    destruct (decide (k = k0)) as [->|Hne].
    + unfold incr_items at 2. unfold get_items. simpl. rewrite !decide_True by done. simpl.
      rewrite incr_update_items_in; [|done|apply elem_of_set_items_keys; by left].
      f_equal. unfold incr_items. rewrite get_set_items, decide_True by done.
      rewrite set_items_twice. unfold get_items. f_equal. lia.
    + unfold incr_items at 2. unfold get_items. simpl. rewrite !decide_False by done. simpl.
      rewrite IH by done. reflexivity.
Qed.


Lemma incr_update k c (other : Counter K) :
  incr k (update c other) = update c (incr k other).
Proof. apply counter_eq. simpl. apply incr_update_items, items_NoDup. Qed.

Lemma update_empty_r c : update c empty_counter = c.
Proof. by apply counter_eq. Qed.


Lemma incr_opt_update (o : option K) c (other : Counter K) :
  incr_opt o (update c other) = update c (incr_opt o other).
Proof. destruct o; [apply incr_update | done]. Qed.

End counter_algebra.

(** ** A line on top of a merge is a merge with the line on top *)

Ltac stats_fields :=
  cbn [apply_temporal count_triple init_stats
       triples subjects objects relations subject_counter object_counter entity_counter
       relation_counter year_counter temporal_marker_counter temporal_records
       min_date max_date min_year max_year].

Lemma apply_temporal_paired t subj rel obj s :
  bounds_paired s → bounds_paired (apply_temporal t (count_triple subj rel obj s)).
Proof.
  intros [Hd Hy]. unfold bounds_paired, max_needs_min in *. stats_fields.
  split.
  - destruct (min_date s), (max_date s), (date_of t); simpl; naive_solver.
  - destruct (min_year s), (max_year s), (year_of t); simpl; naive_solver.
Qed.

Lemma step_paired dataset_type raw_line s :
  bounds_paired s → bounds_paired (step dataset_type raw_line s).
Proof.
  intros Hs. unfold step.
  destruct (line_view dataset_type raw_line) as [[[[subj rel] obj] t]|]; [|done].
  by apply apply_temporal_paired.
Qed.

Lemma run_paired dataset_type lines s :
  bounds_paired s → bounds_paired (run dataset_type lines s).
Proof.
  revert s. induction lines as [|raw rest IH]; intros s Hs; [done |].
  simpl. apply IH. by apply step_paired.
Qed.

Lemma init_stats_paired : bounds_paired init_stats.
Proof. split; intros H; exact H. Qed.

Lemma step_merge dataset_type raw_line s p :
  bounds_paired p →
  step dataset_type raw_line (merge_stats s p) =
  merge_stats s (step dataset_type raw_line p).
Proof.
  intros Hp. unfold step.
  destruct (line_view dataset_type raw_line) as [[[[subj rel] obj] t]|]; [|done].
  pose proof (apply_temporal_paired t subj rel obj p Hp) as Hq.
  set (q := apply_temporal t (count_triple subj rel obj p)) in *.
  destruct (merge_stats_totals s p) as [T1 T2], (merge_stats_totals s q) as [T1' T2'].
  destruct (merge_stats_sets s p) as (S1 & S2 & S3), (merge_stats_sets s q) as (S1' & S2' & S3').
  destruct (merge_stats_counters s p) as (C1 & C2 & C3 & C4 & C5 & C6).
  destruct (merge_stats_counters s q) as (C1' & C2' & C3' & C4' & C5' & C6').
  destruct (merge_stats_min s p) as [M1 M2], (merge_stats_min s q) as [M1' M2'].
  destruct (merge_stats_max s p Hp) as [X1 X2], (merge_stats_max s q Hq) as [X1' X2'].
  apply stats_ext; stats_fields;
    rewrite ?T1, ?T2, ?T1', ?T2', ?S1, ?S2, ?S3, ?S1', ?S2', ?S3', ?C1, ?C2, ?C3, ?C4, ?C5,
      ?C6, ?C1', ?C2', ?C3', ?C4', ?C5', ?C6', ?M1, ?M2, ?M1', ?M2', ?X1, ?X2, ?X1', ?X2';
    unfold q; stats_fields.
  - lia.
  - by rewrite (assoc_L (∪)), (comm_L (∪) {[subj]}), <- (assoc_L (∪)).
  - by rewrite (assoc_L (∪)), (comm_L (∪) {[obj]}), <- (assoc_L (∪)).
  - by rewrite (assoc_L (∪)), (comm_L (∪) {[rel]}), <- (assoc_L (∪)).
  - apply incr_update.
  - apply incr_update.
  - by rewrite !incr_update.
  - apply incr_update.
  - apply incr_opt_update.
  - apply incr_opt_update.
  - lia.
  - exact (opt_min_assoc _ date_ltb_trans date_ltb_total _ _ _).
  - exact (opt_max_assoc _ date_ltb_trans date_ltb_total _ _ _).
  - exact (opt_min_assoc _ Zltb_trans Zltb_total _ _ _).
  - exact (opt_max_assoc _ Zltb_trans Zltb_total _ _ _).
Qed.

Lemma merge_stats_init_r s : merge_stats s init_stats = s.
Proof.
  destruct (merge_stats_totals s init_stats) as [T1 T2].
  destruct (merge_stats_sets s init_stats) as (S1 & S2 & S3).
  destruct (merge_stats_counters s init_stats) as (C1 & C2 & C3 & C4 & C5 & C6).
  destruct (merge_stats_min s init_stats) as [M1 M2].
  destruct (merge_stats_max s init_stats init_stats_paired) as [X1 X2].
  apply stats_ext;
    rewrite ?T1, ?T2, ?S1, ?S2, ?S3, ?C1, ?C2, ?C3, ?C4, ?C5, ?C6, ?M1, ?M2, ?X1, ?X2;
    stats_fields; rewrite ?update_empty_r, ?opt_min_none, ?opt_max_none,
      ?(right_id_L ∅ (∪)); try done; lia.
Qed.


Lemma run_merge dataset_type lines s :
  run dataset_type lines s = merge_stats s (file_stats dataset_type lines).
Proof.
  unfold file_stats. induction lines as [|raw lines IH] using rev_ind.
  - simpl. by rewrite merge_stats_init_r.
  - rewrite !run_app. simpl. rewrite IH. apply step_merge.
    apply run_paired, init_stats_paired.
Qed.

(** ** Totals, keys and positivity of counters *)

Section counter_measures.
Context {K : Type} `{EqDecision K} `{Countable K}.

Implicit Types (k : K) (l : list (K * Z)) (c : Counter K).

Lemma total_set_items k v l :
  foldr (λ e acc, e.2 + acc) 0 (set_items k v l) =
  foldr (λ e acc, e.2 + acc) 0 l - get_items k l + v.
Proof.
  unfold get_items. induction l as [|[k0 v0] l IH]; simpl; [lia |].
  destruct (decide (k = k0)) as [->|Hne]; simpl; [lia |]. rewrite IH. lia.
Qed.

Lemma total_incr k c : total (incr k c) = total c + 1.
Proof. unfold total, incr, incr_items. simpl. rewrite total_set_items. lia. Qed.

Lemma total_empty : total (empty_counter (K:=K)) = 0.
Proof. done. Qed.

Lemma keys_incr k c :
  list_to_set (C:=gset K) (keys (incr k c)) = {[k]} ∪ list_to_set (keys c).
Proof.
  unfold keys, incr, incr_items. simpl. rewrite set_items_keys.
  destruct (decide (k ∈ (items c).*1)) as [Hin|Hin].
  - apply (elem_of_list_to_set (C:=gset K)) in Hin.
    symmetry. apply subseteq_union_1_L. by apply singleton_subseteq_l.
  - rewrite list_to_set_app_L. simpl.
    by rewrite (right_id_L ∅ (∪)), (comm_L (∪)).
Qed.

Lemma elem_of_set_items e k v l : e ∈ set_items k v l → e = (k, v) ∨ e ∈ l.
Proof.
  induction l as [|[k0 v0] l IH]; simpl.
  - intros ->%list_elem_of_singleton. by left.
  - destruct (decide (k = k0)) as [->|Hne].
    + intros [->|?]%elem_of_cons; [by left | right; by right].
    + intros [->|Hin]%elem_of_cons; [right; by left |].
      destruct (IH Hin) as [->|?]; [by left | right; by right].
Qed.

Lemma get_items_nonneg k l : (∀ e, e ∈ l → 1 ≤ e.2) → 0 ≤ get_items k l.
Proof.
  unfold get_items. induction l as [|[k0 v0] l IH]; intros Hpos; simpl; [lia |].
  destruct (decide (k = k0)).
  - assert (1 ≤ (k0, v0).2) as Hv by (apply Hpos; by left). simpl in *. lia.
  - apply IH. intros e He. apply Hpos. by right.
Qed.

Lemma positive_incr k c : positive c → positive (incr k c).
Proof.
  unfold positive, incr, incr_items. simpl. intros Hpos e He.
  apply elem_of_set_items in He as [->|He]; [|by apply Hpos]. simpl.
  pose proof (get_items_nonneg k (items c) Hpos). lia.
Qed.

Lemma positive_empty : positive (empty_counter (K:=K)).
Proof. intros e He. by apply elem_of_nil in He. Qed.

Lemma positive_incr_opt (o : option K) c : positive c → positive (incr_opt o c).
Proof. destruct o; [apply positive_incr | done]. Qed.

(** With counts of at least 1, there are no more keys than the total. *)
Lemma size_le_total c : positive c → size_counter c ≤ total c.
Proof.
  unfold positive, size_counter, total. induction (items c) as [|e l IH]; intros Hpos.
  - simpl. lia.
  - simpl. assert (1 ≤ e.2) by (apply Hpos; by left).
    assert (Z.of_nat (length l) ≤ foldr (λ e acc, e.2 + acc) 0 l).
    { apply IH. intros e' He'. apply Hpos. by right. }
    lia.
Qed.

Lemma size_keys c : Z.of_nat (size (list_to_set (C:=gset K) (keys c))) = size_counter c.
Proof.
  unfold keys, size_counter. rewrite size_list_to_set by apply items_NoDup.
  by rewrite length_fmap.
Qed.

End counter_measures.

(** ** Invariants of the statistics of a file *)

Lemma run_invariant (P : Stats → Prop) dataset_type :
  (∀ tokens s,
     P s →
     P (apply_temporal (extract tokens dataset_type)
          (count_triple (tok tokens 0) (tok tokens 1) (tok tokens 2) s))) →
  ∀ lines s, P s → P (run dataset_type lines s).
Proof.
  intros Hstep lines. induction lines as [|raw rest IH]; intros s Hs; [done |].
  simpl. apply IH. unfold step, line_view. cbv zeta.
  destruct (length _ <? 3)%nat; [done |]. by apply Hstep.
Qed.

Lemma extract_icews tokens : marker_of (extract tokens "icews") = None ∧
                             year_of (extract tokens "icews") = None.
Proof.
  unfold extract. rewrite decide_True by done.
  destruct (4 <=? length tokens)%nat; [|done].
  by destruct (Strptime.strptime_ymd (tok tokens 3)).
Qed.

Lemma extract_not_icews tokens dataset_type :
  dataset_type ≠ "icews" →
  date_of (extract tokens dataset_type) = None ∧
  counted_year (extract tokens dataset_type) = year_of (extract tokens dataset_type).
Proof.
  intros Hne. unfold extract. rewrite decide_False by done.
  repeat case_decide; repeat case_match; done.
Qed.

Lemma extract_generic tokens dataset_type :
  dataset_type ≠ "icews" → dataset_type ≠ "wikidata" → dataset_type ≠ "yago" →
  extract tokens dataset_type = NoTemporal.
Proof. intros ? ? ?. unfold extract. by rewrite !decide_False by done. Qed.

Lemma year_needs_marker t : year_of t ≠ None → marker_of t ≠ None.
Proof. by destruct t. Qed.

Lemma total_incr_opt {K : Type} `{EqDecision K} (o : option K) (c : Counter K) :
  total (incr_opt o c) = total c + (match o with Some _ => 1 | None => 0 end).
Proof. destruct o; simpl; [apply total_incr | lia]. Qed.

Lemma file_stats_run dataset_type lines :
  process_lines dataset_type init_stats lines = Ok (file_stats dataset_type lines).
Proof. apply process_lines_run. Qed.

Lemma file_totals dataset_type lines :
  let s := file_stats dataset_type lines in
  total (subject_counter s) = triples s ∧ total (object_counter s) = triples s ∧
  total (relation_counter s) = triples s ∧ total (entity_counter s) = 2 * triples s ∧
  total (temporal_marker_counter s) = temporal_records s ∧
  0 ≤ total (year_counter s) ≤ triples s ∧ 0 ≤ temporal_records s ≤ triples s.
Proof.
  apply (run_invariant (λ s,
    total (subject_counter s) = triples s ∧ total (object_counter s) = triples s ∧
    total (relation_counter s) = triples s ∧ total (entity_counter s) = 2 * triples s ∧
    total (temporal_marker_counter s) = temporal_records s ∧
    0 ≤ total (year_counter s) ≤ triples s ∧ 0 ≤ temporal_records s ≤ triples s));
    [|by repeat split].
  intros tokens s (H1 & H2 & H3 & H4 & H5 & H6 & H7). stats_fields.
  rewrite !total_incr, !total_incr_opt, H1, H2, H3, H4, H5.
  destruct (extract tokens dataset_type) as [|d|m [y|]]; simpl; repeat split; lia.
Qed.

(** X7. The counters add up to the counts. *)
Theorem file_counters_add_up (dataset_type : string) (lines : list string) :
  ∃ stats,
    process_lines dataset_type init_stats lines = Ok stats ∧
    total (subject_counter stats) = triples stats ∧
    total (object_counter stats) = triples stats ∧
    total (relation_counter stats) = triples stats ∧
    total (entity_counter stats) = 2 * triples stats ∧
    total (temporal_marker_counter stats) = temporal_records stats ∧
    0 ≤ total (year_counter stats) ≤ triples stats ∧
    0 ≤ temporal_records stats ≤ triples stats.
Proof.
  exists (file_stats dataset_type lines). split; [apply file_stats_run |].
  apply file_totals.
Qed.

(** X8. The triple count is the number of accepted lines. *)
Theorem file_triples_count_accepted_lines (dataset_type : string) (lines : list string) :
  ∃ stats,
    process_lines dataset_type init_stats lines = Ok stats ∧
    triples stats = Z.of_nat (length (filter (λ raw_line, accepted raw_line = true) lines)).
Proof.
  exists (file_stats dataset_type lines). split; [apply file_stats_run |].
  unfold file_stats.
  assert (∀ s, triples (run dataset_type lines s) =
               triples s + Z.of_nat (length (filter (λ raw, accepted raw = true) lines)))
    as Hgen; [|by rewrite Hgen].
  induction lines as [|raw rest IH]; intros s; [simpl; lia |].
  cbn [run fold_left]. fold (run dataset_type rest (step dataset_type raw s)).
  rewrite IH, filter_cons. unfold step, line_view, accepted. cbv zeta.
  destruct (decide _) as [Hacc|Hacc];
    destruct (Nat.ltb_spec (length (PyStr.split PyStr.tab (PyStr.strip raw))) 3) as [Hlt|Hge];
    try (apply Nat.leb_le in Hacc; lia).
  - stats_fields. simpl. lia.
  - done.
  - exfalso. apply Hacc. by apply Nat.leb_le.
Qed.

Lemma file_key_sets dataset_type lines :
  let s := file_stats dataset_type lines in
  subjects s = list_to_set (keys (subject_counter s)) ∧
  objects s = list_to_set (keys (object_counter s)) ∧
  relations s = list_to_set (keys (relation_counter s)) ∧
  subjects s ∪ objects s = list_to_set (keys (entity_counter s)).
Proof.
  apply (run_invariant (λ s,
    subjects s = list_to_set (keys (subject_counter s)) ∧
    objects s = list_to_set (keys (object_counter s)) ∧
    relations s = list_to_set (keys (relation_counter s)) ∧
    subjects s ∪ objects s = list_to_set (keys (entity_counter s)))); [|done].
  intros tokens s (H1 & H2 & H3 & H4). stats_fields.
  rewrite !keys_incr, <- H1, <- H2, <- H3, <- H4. split_and!; try done.
  apply set_eq. intros x. rewrite !elem_of_union. tauto.
Qed.

Lemma file_unique_sizes dataset_type lines top_n :
  let s := file_stats dataset_type lines in
  unique_subjects (summarize s top_n) = size_counter (subject_counter s) ∧
  unique_objects (summarize s top_n) = size_counter (object_counter s) ∧
  unique_relations (summarize s top_n) = size_counter (relation_counter s).
Proof.
  intros s. destruct (file_key_sets dataset_type lines) as (Hs & Ho & Hr & _). fold s in Hs, Ho, Hr.
  unfold summarize; cbn [unique_subjects unique_objects unique_relations]. split_and!.
  - rewrite Hs at 1. apply size_keys.
  - rewrite Ho at 1. apply size_keys.
  - rewrite Hr at 1. apply size_keys.
Qed.

(** X9. The identifier sets are the key sets of the counters. *)
Theorem file_sets_are_counter_keys (dataset_type : string) (lines : list string) (top_n : Z) :
  ∃ stats,
    process_lines dataset_type init_stats lines = Ok stats ∧
    subjects stats = list_to_set (keys (subject_counter stats)) ∧
    objects stats = list_to_set (keys (object_counter stats)) ∧
    relations stats = list_to_set (keys (relation_counter stats)) ∧
    subjects stats ∪ objects stats = list_to_set (keys (entity_counter stats)) ∧
    unique_subjects (summarize stats top_n) = size_counter (subject_counter stats) ∧
    unique_objects (summarize stats top_n) = size_counter (object_counter stats) ∧
    unique_relations (summarize stats top_n) = size_counter (relation_counter stats).
Proof.
  exists (file_stats dataset_type lines). split; [apply file_stats_run |].
  destruct (file_key_sets dataset_type lines) as (Hs & Ho & Hr & He).
  destruct (file_unique_sizes dataset_type lines top_n) as (Us & Uo & Ur).
  by split_and!.
Qed.

Lemma positive_file dataset_type lines :
  let s := file_stats dataset_type lines in
  positive (subject_counter s) ∧ positive (object_counter s) ∧
  positive (entity_counter s) ∧ positive (relation_counter s) ∧
  positive (year_counter s) ∧ positive (temporal_marker_counter s).
Proof.
  apply (run_invariant (λ s,
    positive (subject_counter s) ∧ positive (object_counter s) ∧
    positive (entity_counter s) ∧ positive (relation_counter s) ∧
    positive (year_counter s) ∧ positive (temporal_marker_counter s)));
    [|repeat split; apply positive_empty].
  intros tokens s (H1 & H2 & H3 & H4 & H5 & H6). stats_fields.
  split_and!; auto using positive_incr, positive_incr_opt.
Qed.

Lemma most_common_elem {K : Type} `{EqDecision K} (n : Z) (c : Counter K) e :
  e ∈ most_common n c → e ∈ items c.
Proof.
  unfold most_common, nlargest. intros He.
  pose proof (subseteq_take (Z.to_nat n) (sort_desc (items c)) e He) as Hin.
  by rewrite (sort_desc_Permutation (items c)) in Hin.
Qed.

(** X10. No ranking lists a key with a count below 1. *)
Theorem file_rankings_have_positive_counts (dataset_type : string) (lines : list string)
    (top_n : Z) :
  ∃ stats,
    process_lines dataset_type init_stats lines = Ok stats ∧
    (∀ e, e ∈ top_entities (summarize stats top_n) → 1 ≤ e.2) ∧
    (∀ e, e ∈ top_subjects (summarize stats top_n) → 1 ≤ e.2) ∧
    (∀ e, e ∈ top_objects (summarize stats top_n) → 1 ≤ e.2) ∧
    (∀ e, e ∈ top_relations (summarize stats top_n) → 1 ≤ e.2) ∧
    (∀ e, e ∈ top_years (summarize stats top_n) → 1 ≤ e.2) ∧
    (∀ e, e ∈ temporal_markers (summarize stats top_n) → 1 ≤ e.2).
Proof.
  exists (file_stats dataset_type lines). split; [apply file_stats_run |].
  destruct (positive_file dataset_type lines) as (H1 & H2 & H3 & H4 & H5 & H6).
  split_and!; intros e He%most_common_elem; auto.
Qed.

(** X11. There are never more distinct subjects, objects or relations than
    triples, nor more distinct entities than twice the triples. *)
Theorem file_unique_counts_bounded (dataset_type : string) (lines : list string) (top_n : Z) :
  ∃ stats,
    process_lines dataset_type init_stats lines = Ok stats ∧
    unique_subjects (summarize stats top_n) ≤ sum_triples (summarize stats top_n) ∧
    unique_objects (summarize stats top_n) ≤ sum_triples (summarize stats top_n) ∧
    unique_relations (summarize stats top_n) ≤ sum_triples (summarize stats top_n) ∧
    size_counter (entity_counter stats) ≤ 2 * triples stats.
Proof.
  exists (file_stats dataset_type lines). split; [apply file_stats_run |].
  destruct (file_unique_sizes dataset_type lines top_n) as (Hs & Ho & Hr).
  destruct (file_totals dataset_type lines) as (Ts & To & Tr & Te & _).
  destruct (positive_file dataset_type lines) as (H1 & H2 & H3 & H4 & _).
  rewrite Hs, Ho, Hr. cbn [summarize sum_triples].
  rewrite <- Ts at 1. rewrite <- To at 1. rewrite <- Tr at 1. rewrite <- Te.
  split_and!; by apply size_le_total.
Qed.

Section range_facts.
Context {A : Type} (ltb : A → A → bool).
Hypothesis ltb_irrefl : ∀ a, ltb a a = false.

Lemma range_ok_step (mn mx x : option A) :
  range_ok ltb mn mx → range_ok ltb (opt_min ltb mn x) (opt_max ltb mx x).
Proof.
  destruct mn as [a|], mx as [b|], x as [d|]; simpl; try done.
  unfold lesser, greater. intros Hab.
  destruct (ltb d a) eqn:Hda, (ltb b d) eqn:Hbd; auto.
Qed.

End range_facts.

(** X12. Both ends of a range are set together, the minimum not above the
    maximum; an event-calendar file has no year range, any other file has no
    date range. *)
Theorem file_ranges_well_formed (dataset_type : string) (lines : list string) :
  ∃ stats,
    process_lines dataset_type init_stats lines = Ok stats ∧
    range_ok date_ltb (min_date stats) (max_date stats) ∧
    range_ok Z.ltb (min_year stats) (max_year stats) ∧
    if decide (dataset_type = "icews")
    then min_year stats = None ∧ max_year stats = None
    else min_date stats = None ∧ max_date stats = None.
Proof.
  exists (file_stats dataset_type lines). split; [apply file_stats_run |].
  apply (run_invariant (λ s,
    range_ok date_ltb (min_date s) (max_date s) ∧
    range_ok Z.ltb (min_year s) (max_year s) ∧
    if decide (dataset_type = "icews")
    then min_year s = None ∧ max_year s = None
    else min_date s = None ∧ max_date s = None)); [|by repeat case_decide].
  intros tokens s (Hd & Hy & Hex). stats_fields. split_and!.
  - by apply range_ok_step; [apply date_ltb_irrefl |].
  - by apply range_ok_step; [apply Zltb_irrefl |].
  - destruct (decide (dataset_type = "icews")) as [Heq|Hne].
    + subst dataset_type. destruct (extract_icews tokens) as [_ Hyear].
      destruct Hex as [Hmin Hmax]. by rewrite Hyear, Hmin, Hmax.
    + destruct (extract_not_icews tokens dataset_type Hne) as [Hdate _].
      destruct Hex as [Hmin Hmax]. by rewrite Hdate, Hmin, Hmax.
Qed.

Lemma elem_of_keys_incr {K : Type} `{EqDecision K} (k k' : K) (c : Counter K) :
  k' ∈ keys (incr k c) ↔ k' = k ∨ k' ∈ keys c.
Proof. apply elem_of_set_items_keys. Qed.

Lemma date_ltb_year a b :
  (date_ltb a b = true → year a ≤ year b) ∧ (date_ltb a b = false → year b ≤ year a).
Proof.
  split.
  - rewrite date_ltb_lt. unfold date_lt. lia.
  - rewrite date_ltb_nlt. unfold date_lt. lia.
Qed.

(** X13. Outside the event-calendar convention, the year range is exactly the
    span of the years counted: both ends are counted years and every counted
    year lies between them. *)
Theorem file_year_range_is_tight (dataset_type : string) (lines : list string) :
  dataset_type ≠ "icews" →
  ∃ stats,
    process_lines dataset_type init_stats lines = Ok stats ∧
    (∀ y, y ∈ keys (year_counter stats) →
          ∃ a b, min_year stats = Some a ∧ max_year stats = Some b ∧ a ≤ y ≤ b) ∧
    (∀ a, min_year stats = Some a → a ∈ keys (year_counter stats)) ∧
    (∀ b, max_year stats = Some b → b ∈ keys (year_counter stats)).
Proof.
  intros Hne. exists (file_stats dataset_type lines). split; [apply file_stats_run |].
  apply (run_invariant (λ s,
    (∀ y, y ∈ keys (year_counter s) →
          ∃ a b, min_year s = Some a ∧ max_year s = Some b ∧ a ≤ y ≤ b) ∧
    (∀ a, min_year s = Some a → a ∈ keys (year_counter s)) ∧
    (∀ b, max_year s = Some b → b ∈ keys (year_counter s)))).
  2:{ split_and!; [intros y Hy; by apply elem_of_nil in Hy | done | done]. }
  intros tokens s (Hcover & Hmin & Hmax). stats_fields.
  destruct (extract_not_icews tokens dataset_type Hne) as [_ ->].
  destruct (year_of (extract tokens dataset_type)) as [y0|]; simpl;
    [|by rewrite opt_min_none, opt_max_none].
  split_and!.
  - intros y [->|Hy]%elem_of_keys_incr.
    + destruct (min_year s) as [a|], (max_year s) as [b|]; simpl;
        rewrite ?lesser_Z, ?greater_Z; eexists _, _; split_and!; try done; lia.
    + destruct (Hcover y Hy) as (a & b & -> & -> & Hab). simpl.
      rewrite lesser_Z, greater_Z. eexists _, _. split_and!; try done; lia.
  - intros a Ha. apply elem_of_keys_incr.
    destruct (min_year s) as [a0|] eqn:E; simpl in Ha; injection Ha as <-.
    + rewrite lesser_Z. destruct (Z.min_spec a0 y0) as [[_ ->]|[_ ->]]; [right; auto | by left].
    + by left.
  - intros b Hb. apply elem_of_keys_incr.
    destruct (max_year s) as [b0|] eqn:E; simpl in Hb; injection Hb as <-.
    + rewrite greater_Z. destruct (Z.max_spec b0 y0) as [[_ ->]|[_ ->]]; [by left | right; auto].
    + by left.
Qed.

Lemma file_year_range_is_tight_witness :
  ∃ stats,
    process_lines "wikidata" init_stats
      [tsv ["A"; "r"; "B"; "since"; "1990"]; tsv ["B"; "r"; "C"; "until"; "1985"]] = Ok stats ∧
    (∀ y, y ∈ keys (year_counter stats) →
          ∃ a b, min_year stats = Some a ∧ max_year stats = Some b ∧ a ≤ y ≤ b) ∧
    (∀ a, min_year stats = Some a → a ∈ keys (year_counter stats)) ∧
    (∀ b, max_year stats = Some b → b ∈ keys (year_counter stats)).
Proof.
  apply (file_year_range_is_tight "wikidata"
           [tsv ["A"; "r"; "B"; "since"; "1990"]; tsv ["B"; "r"; "C"; "until"; "1985"]]).
  discriminate.
Defined.

(** X14. In the event-calendar convention, the date range spans the years
    counted: the years of both ends are counted years and every counted year
    lies between them. *)
Theorem icews_date_range_spans_years (lines : list string) :
  ∃ stats,
    process_lines "icews" init_stats lines = Ok stats ∧
    (∀ y, y ∈ keys (year_counter stats) →
          ∃ a b, min_date stats = Some a ∧ max_date stats = Some b ∧ year a ≤ y ≤ year b) ∧
    (∀ a, min_date stats = Some a → year a ∈ keys (year_counter stats)) ∧
    (∀ b, max_date stats = Some b → year b ∈ keys (year_counter stats)).
Proof.
  exists (file_stats "icews" lines). split; [apply file_stats_run |].
  apply (run_invariant (λ s,
    (∀ y, y ∈ keys (year_counter s) →
          ∃ a b, min_date s = Some a ∧ max_date s = Some b ∧ year a ≤ y ≤ year b) ∧
    (∀ a, min_date s = Some a → year a ∈ keys (year_counter s)) ∧
    (∀ b, max_date s = Some b → year b ∈ keys (year_counter s)))).
  2:{ split_and!; [intros y Hy; by apply elem_of_nil in Hy | done | done]. }
  intros tokens s (Hcover & Hmin & Hmax). stats_fields.
  destruct (extract_icews tokens) as [Hm Hy0].
  destruct (extract tokens "icews") as [|d|m y0]; simpl in *; [|clear Hm Hy0|done].
  { by rewrite opt_min_none, opt_max_none. }
  assert (∀ a, year (lesser date_ltb a d) ≤ year a ∧ year (lesser date_ltb a d) ≤ year d) as Hl.
  { intros a. unfold lesser. destruct (date_ltb d a) eqn:E;
      pose proof (date_ltb_year d a) as [H1 H2]; split; auto; lia. }
  assert (∀ b, year b ≤ year (greater date_ltb b d) ∧ year d ≤ year (greater date_ltb b d)) as Hg.
  { intros b. unfold greater. destruct (date_ltb b d) eqn:E;
      pose proof (date_ltb_year b d) as [H1 H2]; split; auto; lia. }
  split_and!.
  - intros y [->|Hy]%elem_of_keys_incr.
    + destruct (min_date s) as [a|], (max_date s) as [b|]; simpl; eexists _, _;
        split_and!; try done; try lia; try apply Hl; try apply Hg.
    + destruct (Hcover y Hy) as (a & b & -> & -> & Hab). simpl. eexists _, _.
      split_and!; try done; [pose proof (Hl a) | pose proof (Hg b)]; lia.
  - intros a Ha. apply elem_of_keys_incr.
    destruct (min_date s) as [a0|] eqn:E; simpl in Ha; injection Ha as <-; [|by left].
    unfold lesser. destruct (date_ltb d a0); [by left | right; auto].
  - intros b Hb. apply elem_of_keys_incr.
    destruct (max_date s) as [b0|] eqn:E; simpl in Hb; injection Hb as <-; [|by left].
    unfold greater. destruct (date_ltb b0 d); [by left | right; auto].
Qed.

(** X15. Outside the event-calendar convention a year is counted only on a line
    that also counts as a temporal record. *)
Theorem file_years_within_temporal_records (dataset_type : string) (lines : list string) :
  dataset_type ≠ "icews" →
  ∃ stats,
    process_lines dataset_type init_stats lines = Ok stats ∧
    total (year_counter stats) ≤ temporal_records stats.
Proof.
  intros Hne. exists (file_stats dataset_type lines). split; [apply file_stats_run |].
  apply (run_invariant (λ s, total (year_counter s) ≤ temporal_records s)); [|done].
  intros tokens s Hs. stats_fields. rewrite total_incr_opt.
  destruct (extract_not_icews tokens dataset_type Hne) as [_ ->].
  destruct (extract tokens dataset_type) as [|d|m [y|]]; simpl; lia.
Qed.

Lemma file_years_within_temporal_records_witness :
  ∃ stats,
    process_lines "yago" init_stats
      [tsv ["A"; "r"; "B"; "<occursSince>"; "1995-01-01"]; tsv ["A"; "r"; "C"; "<m>"; "##"]]
      = Ok stats ∧
    total (year_counter stats) ≤ temporal_records stats.
Proof.
  apply (file_years_within_temporal_records "yago"
    [tsv ["A"; "r"; "B"; "<occursSince>"; "1995-01-01"]; tsv ["A"; "r"; "C"; "<m>"; "##"]]).
  discriminate.
Defined.

(** X16. A dataset whose name mentions none of the three conventions is read
    without any temporal extraction. *)
Theorem generic_dataset_has_no_temporal_data (dataset_name : string) (lines : list string) :
  PyStr.contains "icews" (PyStr.lower dataset_name) = false →
  PyStr.contains "wikidata" (PyStr.lower dataset_name) = false →
  PyStr.contains "yago" (PyStr.lower dataset_name) = false →
  ∃ stats,
    process_lines (guess_dataset_type dataset_name) init_stats lines = Ok stats ∧
    items (year_counter stats) = [] ∧
    items (temporal_marker_counter stats) = [] ∧
    temporal_records stats = 0 ∧
    min_date stats = None ∧ max_date stats = None ∧
    min_year stats = None ∧ max_year stats = None.
Proof.
  intros H1 H2 H3.
  assert (guess_dataset_type dataset_name = "generic") as ->.
  { unfold guess_dataset_type. cbv zeta. by rewrite H1, H2, H3. }
  exists (file_stats "generic" lines). split; [apply file_stats_run |].
  apply (run_invariant (λ s,
    items (year_counter s) = [] ∧ items (temporal_marker_counter s) = [] ∧
    temporal_records s = 0 ∧ min_date s = None ∧ max_date s = None ∧
    min_year s = None ∧ max_year s = None)); [|done].
  intros tokens s (Hy & Hm & Hr & Hd1 & Hd2 & Hy1 & Hy2).
  rewrite extract_generic by done. stats_fields. simpl.
  rewrite Hy, Hm, Hr, Hd1, Hd2, Hy1, Hy2. done.
Qed.

Lemma generic_dataset_has_no_temporal_data_witness :
  ∃ stats,
    process_lines (guess_dataset_type "GDELT-small") init_stats
      [tsv ["A"; "r"; "B"; "2014-01-01"]] = Ok stats ∧
    items (year_counter stats) = [] ∧
    items (temporal_marker_counter stats) = [] ∧
    temporal_records stats = 0 ∧
    min_date stats = None ∧ max_date stats = None ∧
    min_year stats = None ∧ max_year stats = None.
Proof.
  apply (generic_dataset_has_no_temporal_data "GDELT-small"
           [tsv ["A"; "r"; "B"; "2014-01-01"]]); reflexivity.
Defined.

(** ** Concatenating files and merging their statistics *)

(** X1. The statistics of two runs of lines merged are the statistics of the
    lines put end to end, attribute for attribute and with the same
    insertion order of the counter keys; more generally, going on from any
    statistics is merging the statistics of the lines into them. *)
Theorem process_lines_concat_is_merge (dataset_type : string) (stats : Stats)
    (lines1 lines2 : list string) :
  ∃ part1 part2,
    process_lines dataset_type init_stats lines1 = Ok part1 ∧
    process_lines dataset_type init_stats lines2 = Ok part2 ∧
    process_lines dataset_type init_stats (lines1 ++ lines2) = Ok (merge_stats part1 part2) ∧
    process_lines dataset_type stats lines1 = Ok (merge_stats stats part1).
Proof.
  exists (file_stats dataset_type lines1), (file_stats dataset_type lines2).
  split_and!; try apply file_stats_run.
  - rewrite process_lines_run, run_app. f_equal. apply run_merge.
  - rewrite process_lines_run. f_equal. apply run_merge.
Qed.



Lemma file_stats_paired dataset_type lines : bounds_paired (file_stats dataset_type lines).
Proof. apply run_paired, init_stats_paired. Qed.

(** X3. The aggregate of the files of a dataset does not depend on the order
    in which the statistics of the files are merged, as far as [==] on
    statistics sees. *)
Theorem aggregate_order_independent (dataset_type : string) (parts parts' : list Stats) :
  Forall (λ part, ∃ lines, process_lines dataset_type init_stats lines = Ok part) parts →
  parts ≡ₚ parts' →
  stats_equiv (fold_left merge_stats parts init_stats)
              (fold_left merge_stats parts' init_stats).
Proof.
  intros Hparts Hperm. apply fold_merge_order_independent; [done |].
  eapply Forall_impl; [exact Hparts |]. intros part [lines Hrun].
  rewrite file_stats_run in Hrun. injection Hrun as <-. apply file_stats_paired.
Qed.

Lemma aggregate_order_independent_witness :
  stats_equiv
    (fold_left merge_stats
       [file_stats "wikidata" [tsv ["A"; "r"; "B"; "since"; "1990"]];
        file_stats "wikidata" [tsv ["C"; "r"; "A"; "until"; "1985"]]] init_stats)
    (fold_left merge_stats
       [file_stats "wikidata" [tsv ["C"; "r"; "A"; "until"; "1985"]];
        file_stats "wikidata" [tsv ["A"; "r"; "B"; "since"; "1990"]]] init_stats).
Proof.
  apply (aggregate_order_independent "wikidata").
  - repeat constructor; eexists; apply file_stats_run.
  - apply Permutation_swap.
Defined.

(** ** The orchestrator *)













(** ** Discovery *)

Lemma le_chars_total a b : PyStr.le_chars a b = false → PyStr.le_chars b a = true.
Proof.
  revert b. induction a as [|x a IH]; intros [|y b]; simpl; try done.
  destruct (Nat.ltb_spec (nat_of_ascii x) (nat_of_ascii y)),
    (Nat.ltb_spec (nat_of_ascii y) (nat_of_ascii x)); try done; try lia. apply IH.
Qed.

Lemma le_chars_trans a b c :
  PyStr.le_chars a b = true → PyStr.le_chars b c = true → PyStr.le_chars a c = true.
Proof.
  revert b c. induction a as [|x a IH]; intros [|y b] [|z c]; simpl; try done.
  destruct (Nat.ltb_spec (nat_of_ascii x) (nat_of_ascii y)),
    (Nat.ltb_spec (nat_of_ascii y) (nat_of_ascii x)),
    (Nat.ltb_spec (nat_of_ascii y) (nat_of_ascii z)),
    (Nat.ltb_spec (nat_of_ascii z) (nat_of_ascii y)),
    (Nat.ltb_spec (nat_of_ascii x) (nat_of_ascii z)),
    (Nat.ltb_spec (nat_of_ascii z) (nat_of_ascii x)); try done; try lia. apply IH.
Qed.

Lemma insert_sorted_Permutation x l : PyStr.insert_sorted x l ≡ₚ x :: l.
Proof.
  induction l as [|y l IH]; simpl; [done |].
  destruct (PyStr.le x y); [done |]. rewrite IH. apply Permutation_swap.
Qed.

Lemma sorted_Permutation l : PyStr.sorted l ≡ₚ l.
Proof.
  induction l as [|x l IH]; simpl; [done |]. by rewrite insert_sorted_Permutation, IH.
Qed.

Lemma insert_sorted_sorted x l :
  StronglySorted name_le l → StronglySorted name_le (PyStr.insert_sorted x l).
Proof.
  induction 1 as [|y l Hl IH Hall]; simpl.
  - by repeat constructor.
  - destruct (PyStr.le x y) eqn:Hxy.
    + constructor; [by constructor |]. constructor; [done |].
      eapply Forall_impl; [exact Hall |]. intros z Hz. by eapply le_chars_trans.
    + constructor; [done |]. rewrite insert_sorted_Permutation.
      constructor; [by apply le_chars_total | done].
Qed.

Lemma sorted_sorted l : StronglySorted name_le (PyStr.sorted l).
Proof.
  induction l as [|x l IH]; simpl; [constructor |]. by apply insert_sorted_sorted.
Qed.

Lemma filter_sorted (P : string → Prop) `{!∀ x, Decision (P x)} l :
  StronglySorted name_le l → StronglySorted name_le (filter P l).
Proof.
  induction 1 as [|y l Hl IH Hall]; [constructor |].
  rewrite filter_cons. case_decide; [|done].
  constructor; [done |]. rewrite Forall_forall in *. intros z Hz. apply Hall. by apply list_elem_of_filter in Hz as [_ ?].
Qed.

Lemma discover_datasets_listing (entries : list (string * node))
    (include : option (list string)) (opened : list string) :
  ∃ datasets,
    discover_datasets (Some (Dir entries)) include opened = (Ok datasets, opened) ∧
    (∀ name, name ∈ datasets ↔ selected entries include name) ∧
    StronglySorted name_le datasets ∧
    (NoDup (entries.*1) → NoDup datasets).
Proof.
  unfold discover_datasets, io_bind, listdir, io_ret.
  set (dirs := filter (λ name, isdir (child (Some (Dir entries)) name) = true) (entries.*1)).
  assert (∀ name, name ∈ PyStr.sorted dirs ↔
                  name ∈ entries.*1 ∧ isdir (child (Some (Dir entries)) name) = true) as Hdirs.
  { intros name. rewrite sorted_Permutation. unfold dirs.
    rewrite list_elem_of_filter. tauto. }
  assert (NoDup (entries.*1) → NoDup (PyStr.sorted dirs)) as Hnd.
  { intros Hnd. rewrite sorted_Permutation. by apply NoDup_filter. }
  destruct include as [[|item items]|].
  - eexists. split; [done |]. split_and!; [|apply sorted_sorted|done].
    intros name. rewrite Hdirs. unfold selected. tauto.
  - eexists. split; [done |]. split_and!.
    + intros name. rewrite list_elem_of_filter, Hdirs. unfold selected. tauto.
    + apply filter_sorted, sorted_sorted.
    + intros H. by apply NoDup_filter, Hnd.
  - eexists. split; [done |]. split_and!; [|apply sorted_sorted|done].
    intros name. rewrite Hdirs. unfold selected. tauto.
Qed.

(** X4. Discovery returns, in ascending order of names, exactly the entries
    of the base directory that are directories and that the filter keeps; a
    filter is matched without regard to case, an empty filter is no filter;
    no file is opened. *)
Theorem discover_datasets_selects (entries : list (string * node))
    (include : option (list string)) (opened : list string) :
  ∃ datasets,
    discover_datasets (Some (Dir entries)) include opened = (Ok datasets, opened) ∧
    (∀ name, name ∈ datasets ↔ selected entries include name) ∧
    StronglySorted name_le datasets ∧
    (NoDup (entries.*1) → NoDup datasets).
Proof. apply discover_datasets_listing. Qed.

(** ** The whole analysis *)









(** ** Lines that do not count, and the order of the lines *)

Lemma step_skipped dataset_type raw_line s :
  accepted raw_line = false → step dataset_type raw_line s = s.
Proof.
  unfold accepted, step, line_view. cbv zeta. intros Hacc%Nat.leb_gt.
  destruct (Nat.ltb_spec (length (PyStr.split PyStr.tab (PyStr.strip raw_line))) 3);
    [done | lia].
Qed.

Lemma run_filter dataset_type lines s :
  run dataset_type (filter (λ raw_line, accepted raw_line = true) lines) s =
  run dataset_type lines s.
Proof.
  revert s. induction lines as [|raw rest IH]; intros s; [done |].
  rewrite filter_cons. destruct (accepted raw) eqn:Hacc.
  - rewrite decide_True by done. simpl. apply IH.
  - rewrite decide_False by done. simpl. rewrite step_skipped by done. apply IH.
Qed.

(** X17. A line that has fewer than three columns once it is trimmed, a blank
    line included, leaves no trace: the statistics of a file are those of
    the file without such lines. *)
Theorem short_lines_leave_no_trace (dataset_type : string) (lines : list string) :
  process_lines dataset_type init_stats
    (filter (λ raw_line, accepted raw_line = true) lines) =
  process_lines dataset_type init_stats lines.
Proof. rewrite !process_lines_run. f_equal. apply run_filter. Qed.

Lemma file_stats_snoc dataset_type lines raw_line :
  file_stats dataset_type (lines ++ [raw_line]) =
  merge_stats (file_stats dataset_type lines) (file_stats dataset_type [raw_line]).
Proof. unfold file_stats. by rewrite run_app, run_merge. Qed.

Lemma file_stats_fold dataset_type lines :
  file_stats dataset_type lines =
  fold_left merge_stats (map (λ raw_line, file_stats dataset_type [raw_line]) lines) init_stats.
Proof.
  induction lines as [|raw lines IH] using rev_ind; [reflexivity |].
  rewrite file_stats_snoc, map_app, fold_left_app. cbn [map fold_left].
  exact (f_equal (λ s, merge_stats s (file_stats dataset_type [raw])) IH).
Qed.

Lemma file_stats_permutation dataset_type lines lines' :
  lines ≡ₚ lines' →
  stats_equiv (file_stats dataset_type lines) (file_stats dataset_type lines').
Proof.
  intros Hperm. rewrite !file_stats_fold.
  apply fold_merge_order_independent.
  - by apply Permutation_map.
  - apply Forall_forall. intros part Hpart. apply list_elem_of_In, in_map_iff in Hpart.
    destruct Hpart as (raw & <- & _). apply file_stats_paired.
Qed.

(** X18. The order of the lines of a file matters only to the order of equal
    counts in a ranking: two files with the same lines in another order have
    the same counts, sets and ranges, the same count for every key of every
    counter, and summaries that agree outside the six rankings. *)
Theorem line_order_is_immaterial (dataset_type : string) (lines lines' : list string)
    (top_n : Z) :
  lines ≡ₚ lines' →
  ∃ stats stats',
    process_lines dataset_type init_stats lines = Ok stats ∧
    process_lines dataset_type init_stats lines' = Ok stats' ∧
    stats_equiv stats stats' ∧
    sum_triples (summarize stats top_n) = sum_triples (summarize stats' top_n) ∧
    unique_subjects (summarize stats top_n) = unique_subjects (summarize stats' top_n) ∧
    unique_objects (summarize stats top_n) = unique_objects (summarize stats' top_n) ∧
    unique_relations (summarize stats top_n) = unique_relations (summarize stats' top_n) ∧
    sum_temporal_records (summarize stats top_n) =
      sum_temporal_records (summarize stats' top_n) ∧
    sum_min_date (summarize stats top_n) = sum_min_date (summarize stats' top_n) ∧
    sum_max_date (summarize stats top_n) = sum_max_date (summarize stats' top_n) ∧
    sum_min_year (summarize stats top_n) = sum_min_year (summarize stats' top_n) ∧
    sum_max_year (summarize stats top_n) = sum_max_year (summarize stats' top_n).
Proof.
  intros Hperm.
  exists (file_stats dataset_type lines), (file_stats dataset_type lines').
  split; [apply file_stats_run |]. split; [apply file_stats_run |].
  pose proof (file_stats_permutation dataset_type lines lines' Hperm) as Heq.
  split; [exact Heq |].
  destruct Heq as (H1 & H2 & H3 & H4 & _ & _ & _ & _ & _ & _ & H5 & H6 & H7 & H8 & H9).
  unfold summarize.
  cbn [sum_triples unique_subjects unique_objects unique_relations sum_temporal_records
       sum_min_date sum_max_date sum_min_year sum_max_year].
  by rewrite H1, H2, H3, H4, H5, H6, H7, H8, H9.
Qed.

Lemma line_order_is_immaterial_witness :
  ∃ stats stats',
    process_lines "wikidata" init_stats
      [tsv ["A"; "r"; "B"; "since"; "1990"]; tsv ["C"; "r"; "A"; "until"; "1985"]] = Ok stats ∧
    process_lines "wikidata" init_stats
      [tsv ["C"; "r"; "A"; "until"; "1985"]; tsv ["A"; "r"; "B"; "since"; "1990"]] = Ok stats' ∧
    stats_equiv stats stats' ∧
    sum_triples (summarize stats 5) = sum_triples (summarize stats' 5) ∧
    unique_subjects (summarize stats 5) = unique_subjects (summarize stats' 5) ∧
    unique_objects (summarize stats 5) = unique_objects (summarize stats' 5) ∧
    unique_relations (summarize stats 5) = unique_relations (summarize stats' 5) ∧
    sum_temporal_records (summarize stats 5) = sum_temporal_records (summarize stats' 5) ∧
    sum_min_date (summarize stats 5) = sum_min_date (summarize stats' 5) ∧
    sum_max_date (summarize stats 5) = sum_max_date (summarize stats' 5) ∧
    sum_min_year (summarize stats 5) = sum_min_year (summarize stats' 5) ∧
    sum_max_year (summarize stats 5) = sum_max_year (summarize stats' 5).
Proof.
  apply (line_order_is_immaterial "wikidata"
           [tsv ["A"; "r"; "B"; "since"; "1990"]; tsv ["C"; "r"; "A"; "until"; "1985"]]
           [tsv ["C"; "r"; "A"; "until"; "1985"]; tsv ["A"; "r"; "B"; "since"; "1990"]] 5).
  apply Permutation_swap.
Defined.

(** ** Dates: what the summary prints is what the parser reads *)

Lemma chars_app s1 s2 : PyStr.chars (s1 +:+ s2) = PyStr.chars s1 ++ PyStr.chars s2.
Proof. induction s1 as [|c s1 IH]; simpl; [done |]. by rewrite <- IH. Qed.

Lemma year_digits (y : Z) :
  1 ≤ y ≤ 9999 →
  ∃ a b c e,
    PyStr.chars (zero_pad 4 y) = [a; b; c; e] ∧
    ∀ rest, Strptime.take_Y (a :: b :: c :: e :: rest) = Some (y, rest).
Proof.
  intros Hy.
  assert (forallb (λ y,
            match PyStr.chars (zero_pad 4 y) with
            | [a; b; c; e] =>
                PyStr.isdigit a && PyStr.isdigit b && PyStr.isdigit c && PyStr.isdigit e &&
                (1000 * PyStr.digit_val a + 100 * PyStr.digit_val b + 10 * PyStr.digit_val c
                 + PyStr.digit_val e =? y)
            | _ => false
            end) (seqZ 1 9999) = true) as Hall by (vm_compute; reflexivity).
  rewrite forallb_forall in Hall. specialize (Hall y).
  destruct (PyStr.chars (zero_pad 4 y)) as [|a [|b [|c [|e [|? ?]]]]];
    try (discriminate Hall; apply list_elem_of_In, elem_of_seqZ; lia).
  exists a, b, c, e. split; [done |]. intros rest.
  assert (y ∈ seqZ 1 9999) as Hin%list_elem_of_In by (apply elem_of_seqZ; lia).
  apply Hall in Hin. apply andb_true_iff in Hin as [Hd Hv]. apply Z.eqb_eq in Hv.
  unfold Strptime.take_Y. by rewrite Hd, Hv.
Qed.

Lemma month_digits (m : Z) rest :
  1 ≤ m ≤ 12 →
  Strptime.take_m_dash (PyStr.chars (zero_pad 2 m) ++ "-"%char :: rest) = Some (m, rest).
Proof.
  intros Hm.
  assert (m = 1 ∨ m = 2 ∨ m = 3 ∨ m = 4 ∨ m = 5 ∨ m = 6 ∨ m = 7 ∨ m = 8 ∨ m = 9 ∨
          m = 10 ∨ m = 11 ∨ m = 12) as Hcases by lia.
  repeat destruct Hcases as [->|Hcases]; try subst m; reflexivity.
Qed.

Lemma day_digits (d : Z) :
  1 ≤ d ≤ 31 → Strptime.take_d (PyStr.chars (zero_pad 2 d)) = Some (d, []).
Proof.
  intros Hd.
  assert (forallb (λ d, bool_decide (Strptime.take_d (PyStr.chars (zero_pad 2 d)) = Some (d, [])))
            (seqZ 1 31) = true) as Hall by (vm_compute; reflexivity).
  rewrite forallb_forall in Hall.
  apply (bool_decide_unpack _), Is_true_true, Hall, list_elem_of_In, elem_of_seqZ. lia.
Qed.

Lemma days_in_month_le y m : days_in_month y m ≤ 31.
Proof. unfold days_in_month. repeat case_match; lia. Qed.

Lemma isoformat_strptime (y m d : Z) (date_value : date) :
  make_date y m d = Ok date_value →
  Strptime.strptime_ymd (isoformat date_value) = Ok date_value.
Proof.
  intros Hmk. pose proof Hmk as Hmk'. unfold make_date in Hmk.
  destruct (_ && _) eqn:Hrange in Hmk; [|discriminate]. injection Hmk as <-.
  repeat (apply andb_true_iff in Hrange as [Hrange ?]).
  repeat match goal with H : (_ <=? _) = true |- _ => apply Z.leb_le in H end.
  pose proof (days_in_month_le y m).
  destruct (year_digits y) as (a & b & c & e & Hcy & HY); [lia |].
  unfold Strptime.strptime_ymd, isoformat. cbn [year month day].
  rewrite !chars_app, Hcy. cbn [app]. rewrite HY.
  change (PyStr.chars "-") with ["-"%char]. cbn [app].
  rewrite month_digits by lia. rewrite day_digits by lia. exact Hmk'.
Qed.

(** X19. The printed form of a date of the calendar, read back in the format of
    the event files, is that date. *)
Theorem isoformat_parses_back (y m d : Z) (date_value : date) :
  make_date y m d = Ok date_value →
  Strptime.strptime_ymd (isoformat date_value) = Ok date_value.
Proof. apply isoformat_strptime. Qed.

Lemma isoformat_parses_back_witness :
  Strptime.strptime_ymd (isoformat (mkDate 2014 2 28)) = Ok (mkDate 2014 2 28).
Proof. apply (isoformat_parses_back 2014 2 28). reflexivity. Defined.

Lemma make_date_fields y m d date_value :
  make_date y m d = Ok date_value →
  make_date (year date_value) (month date_value) (day date_value) = Ok date_value.
Proof.
  intros H. pose proof H as H'. unfold make_date in H.
  destruct (_ && _) in H; [|discriminate]. injection H as <-. exact H'.
Qed.

Lemma strptime_valid s date_value :
  Strptime.strptime_ymd s = Ok date_value →
  make_date (year date_value) (month date_value) (day date_value) = Ok date_value.
Proof.
  unfold Strptime.strptime_ymd. intros Hp.
  repeat case_match; try discriminate. by eapply make_date_fields.
Qed.

(** X20. The dates that a summary prints are in the format of the event files:
    each one, read back, is the date that the statistics hold. *)
Theorem summary_dates_parse_back (dataset_type : string) (lines : list string) (top_n : Z) :
  ∃ stats,
    process_lines dataset_type init_stats lines = Ok stats ∧
    (∀ printed, sum_min_date (summarize stats top_n) = Some printed →
       ∃ d, min_date stats = Some d ∧ Strptime.strptime_ymd printed = Ok d) ∧
    (∀ printed, sum_max_date (summarize stats top_n) = Some printed →
       ∃ d, max_date stats = Some d ∧ Strptime.strptime_ymd printed = Ok d).
Proof.
  exists (file_stats dataset_type lines). split; [apply file_stats_run |].
  assert ((∀ d, min_date (file_stats dataset_type lines) = Some d →
                make_date (year d) (month d) (day d) = Ok d) ∧
          (∀ d, max_date (file_stats dataset_type lines) = Some d →
                make_date (year d) (month d) (day d) = Ok d)) as [Hmin Hmax].
  { apply (run_invariant (λ s,
      (∀ d, min_date s = Some d → make_date (year d) (month d) (day d) = Ok d) ∧
      (∀ d, max_date s = Some d → make_date (year d) (month d) (day d) = Ok d)));
      [|by split].
    intros tokens s [Hmin Hmax]. stats_fields.
    assert (∀ d, date_of (extract tokens dataset_type) = Some d →
                 make_date (year d) (month d) (day d) = Ok d) as Hnew.
    { unfold extract. intros d. repeat case_decide; repeat case_match; try discriminate.
      intros [= <-]. by eapply strptime_valid. }
    destruct (date_of (extract tokens dataset_type)) as [d0|];
      [|by rewrite opt_min_none, opt_max_none].
    split; intros d.
    - destruct (min_date s) as [a|]; simpl; unfold lesser; intros [= <-];
        [case_match|]; auto.
    - destruct (max_date s) as [b|]; simpl; unfold greater; intros [= <-];
        [case_match|]; auto. }
  unfold summarize. cbn [sum_min_date sum_max_date].
  split; intros printed Hp.
  - destruct (min_date _) as [d|] eqn:Hd; [|discriminate]. injection Hp as <-.
    exists d. split; [done |]. eapply isoformat_strptime. by apply Hmin.
  - destruct (max_date _) as [d|] eqn:Hd; [|discriminate]. injection Hp as <-.
    exists d. split; [done |]. eapply isoformat_strptime. by apply Hmax.
Qed.

(** ** The convention of a dataset *)

Lemma starts_with_app p l : PyStr.starts_with p (p ++ l) = true.
Proof. induction p as [|c p IH]; simpl; [done |]. by rewrite Ascii.eqb_refl, IH. Qed.

Lemma contains_chars_app p pre post : PyStr.contains_chars p (pre ++ p ++ post) = true.
Proof.
  induction pre as [|c pre IH]; simpl.
  - generalize (starts_with_app p post). destruct (p ++ post); simpl; by intros ->.
  - rewrite IH. apply orb_true_r.
Qed.

Lemma lower_app s1 s2 : PyStr.lower (s1 +:+ s2) = PyStr.lower s1 +:+ PyStr.lower s2.
Proof.
  unfold PyStr.lower. rewrite chars_app, map_app.
  rewrite <- (str_chars (_ +:+ _)). by rewrite chars_app, !chars_str.
Qed.

Lemma contains_inside p pre mid post :
  PyStr.lower mid = p →
  PyStr.contains p (PyStr.lower (pre +:+ mid +:+ post)) = true.
Proof.
  intros <-. rewrite !lower_app. unfold PyStr.contains. rewrite !chars_app.
  apply contains_chars_app.
Qed.

(** X21. A dataset is read in the event-calendar convention as soon as its name
    has [icews] somewhere in it, in any mix of letter cases and whatever
    else the name mentions; failing that, [wikidata] anywhere selects the
    linked-data convention, and failing both, [yago] the fact-extraction
    one. *)
Theorem guess_dataset_type_by_substring (prefix word suffix : string) :
  let name := prefix +:+ word +:+ suffix in
  (PyStr.lower word = "icews" → guess_dataset_type name = "icews") ∧
  (PyStr.lower word = "wikidata" →
   PyStr.contains "icews" (PyStr.lower name) = false →
   guess_dataset_type name = "wikidata") ∧
  (PyStr.lower word = "yago" →
   PyStr.contains "icews" (PyStr.lower name) = false →
   PyStr.contains "wikidata" (PyStr.lower name) = false →
   guess_dataset_type name = "yago").
Proof.
  intros name. unfold guess_dataset_type. cbv zeta. subst name. split_and!.
  - intros Hw. by rewrite (contains_inside "icews").
  - intros Hw ->. by rewrite (contains_inside "wikidata").
  - intros Hw -> ->. by rewrite (contains_inside "yago").
Qed.

(** ** Reading one path *)


(** ** Years before zero in the linked-data convention *)






Lemma guess_dataset_type_by_substring_witness :
  guess_dataset_type ("" +:+ "ICEWS" +:+ "05-15_wikidata") = "icews" ∧
  guess_dataset_type ("my-" +:+ "WikiData" +:+ "12k") = "wikidata" ∧
  guess_dataset_type ("" +:+ "YAGO" +:+ "11k") = "yago".
Proof.
  split_and!.
  - by apply (guess_dataset_type_by_substring "" "ICEWS" "05-15_wikidata").
  - by apply (guess_dataset_type_by_substring "my-" "WikiData" "12k").
  - by apply (guess_dataset_type_by_substring "" "YAGO" "11k").
Defined.

(** ** The console report of a file *)

Lemma isoformat_nonempty d : isoformat d ≠ "".
Proof.
  intros H. apply (f_equal PyStr.chars) in H. unfold isoformat in H.
  rewrite !chars_app in H. change (PyStr.chars "-") with ["-"%char] in H.
  by destruct (PyStr.chars (zero_pad 4 (year d))).
Qed.

Lemma most_common_none {K : Type} `{EqDecision K} (n : Z) (c : Counter K) :
  n ≤ 0 → most_common n c = [].
Proof.
  intros Hn. unfold most_common, nlargest. by replace (Z.to_nat n) with 0%nat by lia.
Qed.

Lemma file_ranges dataset_type lines :
  let s := file_stats dataset_type lines in
  range_ok date_ltb (min_date s) (max_date s) ∧
  range_ok Z.ltb (min_year s) (max_year s) ∧
  (min_date s = None ∨ min_year s = None) ∧
  if decide (dataset_type = "icews")
  then min_year s = None ∧ max_year s = None
  else min_date s = None ∧ max_date s = None.
Proof.
  apply (run_invariant (λ s,
    range_ok date_ltb (min_date s) (max_date s) ∧
    range_ok Z.ltb (min_year s) (max_year s) ∧
    (min_date s = None ∨ min_year s = None) ∧
    if decide (dataset_type = "icews")
    then min_year s = None ∧ max_year s = None
    else min_date s = None ∧ max_date s = None));
    [|split_and!; [done | done | by left | by case_decide]].
  intros tokens s (Hd & Hy & _ & Hex). stats_fields.
  assert (if decide (dataset_type = "icews")
          then opt_min Z.ltb (min_year s) (year_of (extract tokens dataset_type)) = None ∧
               opt_max Z.ltb (max_year s) (year_of (extract tokens dataset_type)) = None
          else opt_min date_ltb (min_date s) (date_of (extract tokens dataset_type)) = None ∧
               opt_max date_ltb (max_date s) (date_of (extract tokens dataset_type)) = None)
    as Hex'.
  { destruct (decide (dataset_type = "icews")) as [Heq|Hne].
    - subst dataset_type. destruct (extract_icews tokens) as [_ Hyear].
      destruct Hex as [Hmin Hmax]. by rewrite Hyear, Hmin, Hmax.
    - destruct (extract_not_icews tokens dataset_type Hne) as [Hdate _].
      destruct Hex as [Hmin Hmax]. by rewrite Hdate, Hmin, Hmax. }
  split_and!.
  - by apply range_ok_step; [apply date_ltb_irrefl |].
  - by apply range_ok_step; [apply Zltb_irrefl |].
  - destruct (decide (dataset_type = "icews")); [right | left]; apply Hex'.
  - exact Hex'.
Qed.

(** X24. The console report of the statistics of a file ends with its range
    lines: at most one of them, and each with both of its ends, so that the
    word [None] is never printed for a missing end. Before them come the
    title, the totals and at most four ranking lines; with a ranking length
    of zero or less there is no ranking line, and the number of temporal
    records, which is printed on the line of the markers, is not shown. *)
Theorem humanize_file_report (dataset_name dataset_type : string) (lines : list string)
    (top_n : Z) :
  ∃ stats rankings,
    process_lines dataset_type init_stats lines = Ok stats ∧
    humanize dataset_name (summarize stats top_n) top_n =
      ["=== " +:+ dataset_name +:+ " ===";
       "Total triples: " +:+ thousands (triples stats)
       +:+ "; unique subjects: " +:+ thousands (Z.of_nat (size (subjects stats)))
       +:+ "; unique objects: " +:+ thousands (Z.of_nat (size (objects stats)))
       +:+ "; relations: " +:+ thousands (Z.of_nat (size (relations stats)))]
      ++ rankings ++ range_lines stats ∧
    (length rankings ≤ 4)%nat ∧
    (length (range_lines stats) ≤ 1)%nat ∧
    (top_n ≤ 0 → rankings = []).
Proof.
  exists (file_stats dataset_type lines).
  destruct (file_ranges dataset_type lines) as (Hd & Hy & Hone & _).
  set (s := file_stats dataset_type lines) in *.
  set (r1 := match most_common top_n (entity_counter s) with
             | [] => []
             | _ :: _ => ["Top entities: " +:+ py_join ", "
                            (map (ranked_text id) (most_common top_n (entity_counter s)))]
             end).
  set (r2 := match most_common top_n (relation_counter s) with
             | [] => []
             | _ :: _ => ["Top relations: " +:+ py_join ", "
                            (map (ranked_text id) (most_common top_n (relation_counter s)))]
             end).
  set (r3 := match most_common top_n (year_counter s) with
             | [] => []
             | _ :: _ => ["Most active years: " +:+ py_join ", "
                            (map (ranked_text pretty) (most_common top_n (year_counter s)))]
             end).
  set (r4 := match most_common top_n (temporal_marker_counter s) with
             | [] => []
             | _ :: _ => ["Temporal markers: " +:+ py_join ", "
                            (map (ranked_text id)
                               (most_common top_n (temporal_marker_counter s)))
                          +:+ "; with explicit temporal info: "
                          +:+ thousands (temporal_records s)]
             end).
  exists (r1 ++ r2 ++ r3 ++ r4).
  split; [apply file_stats_run |]. split_and!.
  - unfold humanize, summarize, range_lines.
    cbn [sum_triples unique_subjects unique_objects unique_relations top_entities
         top_relations top_years temporal_markers sum_temporal_records sum_min_date
         sum_max_date sum_min_year sum_max_year].
    subst r1 r2 r3 r4.
    destruct (most_common top_n (entity_counter s)) as [|e1 l1];
      destruct (most_common top_n (relation_counter s)) as [|e2 l2];
      destruct (most_common top_n (year_counter s)) as [|e3 l3];
      destruct (most_common top_n (temporal_marker_counter s)) as [|e4 l4];
      destruct (min_date s) as [a|], (max_date s) as [b|]; try done;
      destruct (min_year s) as [a'|], (max_year s) as [b'|]; try done;
      cbn [fmap option_fmap option_map truthy str_or_None];
      rewrite ?(bool_decide_eq_false_2 _ (isoformat_nonempty _));
      reflexivity.
  - subst r1 r2 r3 r4. rewrite !length_app. repeat case_match; simpl; lia.
  - unfold range_lines. rewrite length_app.
    destruct Hone as [-> | ->]; repeat case_match; simpl; lia.
  - intros Hn. subst r1 r2 r3 r4. by rewrite !most_common_none.
Qed.

Example thousands_examples :
  thousands 1234567 = "1,234,567" ∧ thousands 999 = "999" ∧ thousands 1000 = "1,000" ∧
  thousands 0 = "0" ∧ thousands (-12345) = "-12,345".
Proof. by vm_compute. Qed.

(** ** What the analysis opens *)

Lemma process_file_log path at_path dataset_type opened :
  (process_file path at_path dataset_type opened).2 = opened ++ [path].
Proof.
  unfold process_file, io_bind, open_lines, io_lift. by destruct at_path as [[]|].
Qed.

Lemma analyze_files_log dataset_dir dir dataset_type top_n per_file filenames agg sums
    opened p :
  p ∈ (analyze_files dataset_dir dir dataset_type top_n per_file filenames agg sums opened).2 →
  p ∈ opened ∨ ∃ f, f ∈ filenames ∧ is_txt f = true ∧ p = path_join dataset_dir f.
Proof.
  revert agg sums opened.
  induction filenames as [|f rest IH]; intros agg sums opened Hp; [by left |].
  cbn [analyze_files] in Hp. fold (is_txt f) in Hp.
  destruct (is_txt f) eqn:Htxt; cbn [negb] in Hp.
  - unfold io_bind in Hp.
    pose proof (process_file_log (path_join dataset_dir f) (child dir f) dataset_type opened)
      as Hlog.
    destruct (process_file _ _ _ opened) as [[stats|e] log]; cbn [snd] in Hlog; subst log.
    + apply IH in Hp as [Hp|(f' & Hf' & Ht & ->)].
      * apply elem_of_app in Hp as [Hp|Hp%list_elem_of_singleton]; [by left |].
        right. exists f. split_and!; [by left | done | done].
      * right. exists f'. split_and!; [by right | done | done].
    + cbn [snd] in Hp.
      apply elem_of_app in Hp as [Hp|Hp%list_elem_of_singleton]; [by left |].
      right. exists f. split_and!; [by left | done | done].
  - apply IH in Hp as [Hp|(f' & Hf' & Ht & ->)]; [by left |].
    right. exists f'. split_and!; [by right | done | done].
Qed.

Lemma analyze_datasets_log base_dir base top_n per_file datasets results opened p :
  p ∈ (analyze_datasets base_dir base top_n per_file datasets results opened).2 →
  p ∈ opened ∨
  ∃ d f, d ∈ datasets ∧ f ∈ split_names (child base d) ∧
         p = path_join (path_join base_dir d) f.
Proof.
  revert results opened.
  induction datasets as [|d rest IH]; intros results opened Hp; [by left |].
  cbn [analyze_datasets] in Hp. unfold io_bind in Hp.
  destruct (child base d) as [[lines|entries]|] eqn:Hc; cbn [listdir io_raise io_ret] in Hp;
    [by left | | by left].
  destruct (analyze_files _ _ _ _ _ _ _ _ opened) as [[folded|e] log] eqn:Hfiles.
  - apply IH in Hp as [Hp|(d' & f & Hd' & Hf & ->)].
    + pose proof (analyze_files_log (path_join base_dir d) (Some (Dir entries))
                    (guess_dataset_type d) top_n per_file (PyStr.sorted (entries.*1))
                    init_stats [] opened p) as Hlog.
      rewrite Hfiles in Hlog. destruct (Hlog Hp) as [?|(f & Hf & Ht & ->)]; [by left |].
      right. exists d, f. split_and!; [by left | | done].
      rewrite Hc. cbn [split_names]. by apply list_elem_of_filter.
    + right. exists d', f. split_and!; [by right | done | done].
  - pose proof (analyze_files_log (path_join base_dir d) (Some (Dir entries))
                  (guess_dataset_type d) top_n per_file (PyStr.sorted (entries.*1))
                  init_stats [] opened p) as Hlog.
    rewrite Hfiles in Hlog. destruct (Hlog Hp) as [?|(f & Hf & Ht & ->)]; [by left |].
    right. exists d, f. split_and!; [by left | | done].
    rewrite Hc. cbn [split_names]. by apply list_elem_of_filter.
Qed.

Lemma starts_with_prefix p l l' :
  PyStr.starts_with p l = true → PyStr.starts_with p (l ++ l') = true.
Proof.
  revert l. induction p as [|c p IH]; intros [|x l]; simpl; try done.
  intros [-> Hp]%andb_true_iff. by rewrite IH.
Qed.

Lemma endswith_app p a b : PyStr.endswith p b = true → PyStr.endswith p (a +:+ b) = true.
Proof.
  unfold PyStr.endswith. intros H. rewrite chars_app, rev_app_distr.
  by apply starts_with_prefix.
Qed.

Lemma endswith_path_join p a b :
  PyStr.endswith p b = true → PyStr.endswith p (path_join a b) = true.
Proof.
  intros H. unfold path_join. repeat case_match; [done | by apply endswith_app |].
  by apply endswith_app, endswith_app.
Qed.

Lemma split_names_txt dir f : f ∈ split_names dir → is_txt f = true.
Proof.
  unfold split_names. destruct dir as [[|entries]|]; try (intros H; by apply elem_of_nil in H).
  by intros [H _]%list_elem_of_filter.
Qed.

(** X25. Whether it succeeds or fails, the analysis opens nothing but entries
    whose names end in [.txt] and that sit directly inside a selected
    dataset directory; every path it opens ends in [.txt]. *)
Theorem analyze_opens_only_split_files (base_dir : string) (entries : list (string * node))
    (top_n : Z) (include : option (list string)) (per_file : bool) :
  let base := Some (Dir entries) in
  Forall (λ path,
      PyStr.endswith ".txt" path = true ∧
      ∃ dataset filename,
        selected entries include dataset ∧
        filename ∈ (match child base dataset with
                    | Some (Dir files) => files.*1
                    | _ => []
                    end) ∧
        PyStr.endswith ".txt" filename = true ∧
        path = path_join (path_join base_dir dataset) filename)
    (analyze base_dir base top_n include per_file []).2.
Proof.
  intros base. subst base. apply Forall_forall. intros p Hp.
  destruct (discover_datasets_listing entries include []) as (datasets & Hdisc & Hmem & _).
  unfold analyze, io_bind in Hp. rewrite Hdisc in Hp.
  destruct datasets as [|d0 rest] eqn:Hds; [by apply elem_of_nil in Hp |].
  rewrite <- Hds in *. clear Hds.
  apply analyze_datasets_log in Hp as [Hp|(d & f & Hd & Hf & ->)];
    [by apply elem_of_nil in Hp |].
  pose proof (split_names_txt _ _ Hf) as Htxt. split.
  - by apply endswith_path_join.
  - exists d, f. split_and!; [by apply Hmem | | done | done].
    unfold split_names in Hf. destruct (child (Some (Dir entries)) d) as [[|files]|];
      try by apply elem_of_nil in Hf.
    apply list_elem_of_filter in Hf as [_ Hf]. by apply sorted_elem.
Qed.

(** ** The extractor as one update *)


(** ** The length of the rankings *)

(** X27. Each ranking of the summary of a file has as many entries as asked for,
    or all the keys when there are fewer; for subjects, objects and
    relations the number of keys is the unique count of the same summary. *)
Theorem file_ranking_lengths (dataset_type : string) (lines : list string) (top_n : Z) :
  ∃ stats,
    process_lines dataset_type init_stats lines = Ok stats ∧
    let summary := summarize stats top_n in
    Z.of_nat (length (top_subjects summary)) = Z.min (Z.max top_n 0) (unique_subjects summary) ∧
    Z.of_nat (length (top_objects summary)) = Z.min (Z.max top_n 0) (unique_objects summary) ∧
    Z.of_nat (length (top_relations summary)) =
      Z.min (Z.max top_n 0) (unique_relations summary) ∧
    Z.of_nat (length (top_entities summary)) =
      Z.min (Z.max top_n 0) (Z.of_nat (size (subjects stats ∪ objects stats))).
Proof.
  exists (file_stats dataset_type lines). split; [apply file_stats_run |]. cbv zeta.
  destruct (file_unique_sizes dataset_type lines top_n) as (Hs & Ho & Hr).
  destruct (file_key_sets dataset_type lines) as (_ & _ & _ & He).
  rewrite Hs, Ho, Hr, He, size_keys.
  unfold summarize. cbn [top_subjects top_objects top_relations top_entities].
  unfold most_common, size_counter. by rewrite !nlargest_length.
Qed.
